(** * mongodb_retention.py: retention sweep and index rebuild

    A shallow embedding of [src/mongodb_retention.py] and of the library
    functions it calls ([datetime.date], [calendar.timegm], [monthdelta],
    the pymongo client), followed by the properties of the script.

    Python integers are unbounded and are modelled as [Z]; [//] and [%]
    with a positive divisor are [Z.div] and [Z.modulo].  Exceptions are an
    error monad over an explicit program state; the state is kept when an
    exception is raised, as the side effects of a Python call are. *)

From Stdlib Require Import ZArith Lia Bool.
From stdpp Require Import base option list strings gmap fin_maps.

Local Open Scope Z_scope.

(** ** Exceptions *)

Inductive exn :=
| PyMongoError
| TypeError
| ValueError
| OverflowError
| SystemExit (code : Z).

Inductive result (A : Type) :=
| Ok (a : A)
| Raise (e : exn).
Arguments Ok {A} a.
Arguments Raise {A} e.

(** The status with which the interpreter ends when [r] is the outcome of
    the whole script: [sys.exit(n)] gives [n], any other exception that
    reaches the top level prints a traceback and gives 1. *)
Definition exit_status {A} (r : result A) : Z :=
  match r with
  | Ok _ => 0
  | Raise (SystemExit n) => n
  | Raise _ => 1
  end.

(** ** [datetime.date] *)

Module PyDate.

Record date := Date { year : Z; month : Z; day : Z }.

Definition MINYEAR : Z := 1.
Definition MAXYEAR : Z := 9999.

(** [year % 4 == 0 and (year % 100 != 0 or year % 400 == 0)] *)
Definition _is_leap (y : Z) : bool :=
  (y mod 4 =? 0) && (negb (y mod 100 =? 0) || (y mod 400 =? 0)).

(** [_DAYS_IN_MONTH = [-1, 31, 28, 31, 30, 31, 30, 31, 31, 30, 31, 30, 31]] *)
Definition _DAYS_IN_MONTH : list Z :=
  [-1; 31; 28; 31; 30; 31; 30; 31; 31; 30; 31; 30; 31].

(** [_DAYS_BEFORE_MONTH], built by the module's loop over
    [_DAYS_IN_MONTH[1:]]. *)
Definition _DAYS_BEFORE_MONTH : list Z :=
  fst (fold_left (fun '(acc, dbm) dim => (acc ++ [dbm], dbm + dim))
                 (tail _DAYS_IN_MONTH) ([-1], 0)).

(** A list indexed by a month number; the callers below only index with
    1..12, where the default is never used. *)
Definition index (l : list Z) (m : Z) : Z := default 0 (l !! Z.to_nat m).

Definition _days_before_year (y : Z) : Z :=
  let y := y - 1 in y * 365 + y / 4 - y / 100 + y / 400.

Definition _days_in_month (y m : Z) : Z :=
  if (m =? 2) && _is_leap y then 29 else index _DAYS_IN_MONTH m.

Definition _days_before_month (y m : Z) : Z :=
  index _DAYS_BEFORE_MONTH m + (if (2 <? m) && _is_leap y then 1 else 0).

Definition _ymd2ord (y m d : Z) : Z :=
  _days_before_year y + _days_before_month y m + d.

(** [_check_date_fields]: the constructor raises [ValueError] outside the
    supported range. *)
Definition _check_date_fields (y m d : Z) : result date :=
  if negb ((MINYEAR <=? y) && (y <=? MAXYEAR)) then Raise ValueError
  else if negb ((1 <=? m) && (m <=? 12)) then Raise ValueError
  else if negb ((1 <=? d) && (d <=? _days_in_month y m)) then Raise ValueError
  else Ok (Date y m d).

(** The dates that a [date] object can hold. *)
Definition valid (t : date) : Prop :=
  MINYEAR <= year t <= MAXYEAR /\ 1 <= month t <= 12 /\
  1 <= day t <= _days_in_month (year t) (month t).

(** [date.replace(year, month, day)] *)
Definition replace (_ : date) (y m d : Z) : result date :=
  _check_date_fields y m d.

Definition toordinal (t : date) : Z := _ymd2ord (year t) (month t) (day t).

(** [date.timetuple()]: the first six fields, which are all that
    [calendar.timegm] reads; a date has no time of day. *)
Definition timetuple (t : date) : Z * Z * Z * Z * Z * Z :=
  (year t, month t, day t, 0, 0, 0).

(** Chronological order, as [date.__lt__] compares (year, month, day). *)
Definition lt (a b : date) : Prop :=
  year a < year b \/
  (year a = year b /\ (month a < month b \/ (month a = month b /\ day a < day b))).

End PyDate.

(** ** [calendar.timegm] *)

Module PyCalendar.

Definition EPOCH : Z := 1970.
Definition _EPOCH_ORD : Z := PyDate.toordinal (PyDate.Date EPOCH 1 1).

Definition timegm (tuple : Z * Z * Z * Z * Z * Z) : Z :=
  let '(year, month, day, hour, minute, second) := tuple in
  let days := PyDate.toordinal (PyDate.Date year month 1) - _EPOCH_ORD + day - 1 in
  let hours := days * 24 + hour in
  let minutes := hours * 60 + minute in
  let seconds := minutes * 60 + second in
  seconds.

End PyCalendar.

(** ** [monthdelta] *)

Module MonthDelta.
Import PyDate.

(** [monthdelta.__add__] on a date: the month number is shifted, the year
    carries, and the day is pulled back into February or a 30-day month;
    a result outside the supported years is an [OverflowError]. *)
Definition add (months : Z) (other : date) : result date :=
  let day := day other in
  let month := month other + months - 1 in
  let year := year other + month / 12 in
  let month := month mod 12 + 1 in
  let day :=
    if month =? 2 then
      if (29 <=? day) && (year mod 4 =? 0)
                      && (negb (year mod 100 =? 0) || (year mod 400 =? 0))
      then 29
      else if 28 <? day then 28 else day
    else if ((month =? 4) || (month =? 6) || (month =? 9) || (month =? 11))
            && (30 <? day) then 30
    else day in
  match replace other year month day with
  | Ok t => Ok t
  | Raise ValueError => Raise OverflowError
  | Raise e => Raise e
  end.

(** [date - monthdelta(n)] is [monthdelta.__rsub__]: [-self + other]. *)
Definition rsub (months : Z) (other : date) : result date :=
  add (- months) other.

End MonthDelta.

(** ** The database deployment, as the pymongo client sees it *)

(** BSON values, as far as a comparison against a number tells them
    apart: [$lt] with a numeric bound only matches numeric values. *)
Inductive value :=
| VInt (n : Z)
| VStr (s : string)
| VBool (b : bool)
| VNull.

Abbreviation document := (gmap string value).

Record collection := Collection {
  docs : list document;
  indexes : list string;
}.

Abbreviation database := (gmap string collection).

Record server := Server {
  ismaster : bool;
  dbs : gmap string database;
}.

(** The filter documents of the script: [{field: {"$lt": bound}}]. *)
Inductive query :=
| QLt (field : string) (bound : Z).

Definition matches (q : query) (d : document) : bool :=
  match q with
  | QLt field bound =>
      match d !! field with
      | Some (VInt t) => t <? bound
      | _ => false
      end
  end.

Record client := Client {
  client_id : nat;
  client_uri : string;
}.

#[global] Instance client_eq_dec : EqDecision client.
Proof. solve_decision. Defined.

Inductive level := DEBUG | INFO | ERROR.

(** The calls to [logging], one constructor per format string. *)
Inductive message :=
| MsgConnectionError
| MsgConnectedPrimary (host : string) (user : option string)
| MsgPrimaryNotFound
| MsgRetention (retention : Z) (cut_off_date : PyDate.date)
| MsgCollection (coll : string)
| MsgTotalToRemove (how_many how_many_to_cut_off : nat)
| MsgRemovedLeft (how_many_to_cut_off how_many_left : nat)
| MsgRebuilding (host : string)
| MsgIndexList (coll : string)
| MsgIndex (idx : string)
| MsgRebuilded (coll : string)
| MsgSecondaryNotFound
| MsgNoRetention
| MsgNoRebuild.

(** What the script does to the outside, in order. *)
Inductive event :=
| EMongoClient (uri : string)
| EClose (c : client)
| ERemove (uri db coll : string) (q : query)
| EReindex (uri db coll : string)
| ELog (lvl : level) (m : message).

(** The program state: the [MongoDB] object's private connection field
    and everything outside the process.  [servers] is keyed by the
    connection URI a deployment accepts; [MongoClient] on any other URI
    raises a [PyMongoError]. *)
Record state := State {
  __conn : option client;
  today : PyDate.date;
  servers : gmap string server;
  open_clients : list client;
  next_id : nat;
  trace : list event;
}.

Definition set_conn (c : option client) (s : state) : state :=
  State c (today s) (servers s) (open_clients s) (next_id s) (trace s).
Definition set_servers (m : gmap string server) (s : state) : state :=
  State (__conn s) (today s) m (open_clients s) (next_id s) (trace s).
Definition set_clients (l : list client) (n : nat) (s : state) : state :=
  State (__conn s) (today s) (servers s) l n (trace s).
Definition emit (e : event) (s : state) : state :=
  State (__conn s) (today s) (servers s) (open_clients s) (next_id s) (trace s ++ [e]).

(** ** The monad of the script: state and exceptions *)

Definition M (A : Type) : Type := state -> result A * state.

#[global] Instance M_ret : MRet M := λ A a s, (Ok a, s).
#[global] Instance M_bind : MBind M := λ A B f m s,
  match m s with
  | (Ok a, s') => f a s'
  | (Raise e, s') => (Raise e, s')
  end.

Definition raise {A} (e : exn) : M A := λ s, (Raise e, s).
Definition gets {A} (f : state -> A) : M A := λ s, (Ok (f s), s).
Definition modify (f : state -> state) : M unit := λ s, (Ok (), f s).

(** [try: body except E: handler], for the exceptions [E] selected by
    [catches]. *)
Definition try_except {A} (body : M A) (catches : exn -> bool) (handler : exn -> M A) : M A :=
  λ s, match body s with
       | (Raise e, s') => if catches e then handler e s' else (Raise e, s')
       | r => r
       end.

(** [for x in l: body x] *)
Fixpoint for_each {A} (l : list A) (body : A -> M unit) : M unit :=
  match l with
  | [] => mret ()
  | x :: l' => body x;; for_each l' body
  end.

Definition log (lvl : level) (m : message) : M unit := modify (emit (ELog lvl m)).

(** [sys.exit(code)] raises [SystemExit]. *)
Definition sys_exit {A} (code : Z) : M A := raise (SystemExit code).

Module Driver.

(** [MongoClient(uri)] *)
Definition MongoClient (uri : string) : M client :=
  modify (emit (EMongoClient uri));;
  srv ← gets servers;
  match srv !! uri with
  | None => raise PyMongoError
  | Some _ =>
      n ← gets next_id;
      cs ← gets open_clients;
      let c := Client n uri in
      modify (set_clients (cs ++ [c]) (S n));;
      mret c
  end.

(** [client.close()] *)
Definition client_close (c : client) : M unit :=
  modify (emit (EClose c));;
  cs ← gets open_clients;
  n ← gets next_id;
  modify (set_clients (filter (λ c', c' ≠ c) cs) n).

Definition the_server (c : client) : M server :=
  srv ← gets servers;
  match srv !! client_uri c with
  | None => raise PyMongoError
  | Some sv => mret sv
  end.

(** [client['admin'].command('isMaster')['ismaster']] *)
Definition command_isMaster (c : client) : M bool :=
  sv ← the_server c; mret (ismaster sv).

Definition the_database (c : client) (db : string) : M database :=
  sv ← the_server c; mret (default ∅ (dbs sv !! db)).

Definition the_collection (c : client) (db coll : string) : M collection :=
  d ← the_database c db; mret (default (Collection [] []) (d !! coll)).

(** [Database.collection_names(include_system_collections)]: with a
    false argument the names that start with [system.] are left out. *)
Definition collection_names (c : client) (db : string)
    (include_system_collections : bool) : M (list string) :=
  d ← the_database c db;
  let names := (map_to_list d).*1 in
  if negb include_system_collections
  then mret (filter (λ name, String.prefix "system." name = false) names)
  else mret names.

(** [collection.count()] *)
Definition count (c : client) (db coll : string) : M nat :=
  k ← the_collection c db coll; mret (length (docs k)).

(** [collection.find(q).count()] *)
Definition find_count (c : client) (db coll : string) (q : query) : M nat :=
  k ← the_collection c db coll; mret (length (filter (λ d, matches q d = true) (docs k))).

Definition remove_docs (q : query) (k : collection) : collection :=
  Collection (filter (λ d, matches q d = false) (docs k)) (indexes k).

Definition update_collection (f : collection -> collection)
    (uri db coll : string) (srv : gmap string server) : gmap string server :=
  alter (λ sv, Server (ismaster sv) (alter (alter f coll) db (dbs sv))) uri srv.

(** [collection.remove(q)], on the deployment the client is connected
    to.  What the other members of a replica set then do with the delete
    is the deployment's own business and is not modelled: each URI has
    its own store. *)
Definition remove (c : client) (db coll : string) (q : query) : M unit :=
  _ ← the_server c;
  modify (emit (ERemove (client_uri c) db coll q));;
  srv ← gets servers;
  modify (set_servers (update_collection (remove_docs q) (client_uri c) db coll srv)).

(** [collection.index_information()], iterated: the index names. *)
Definition index_information (c : client) (db coll : string) : M (list string) :=
  k ← the_collection c db coll; mret (indexes k).

(** [collection.reindex()]: the stored documents and the index
    definitions stay as they are. *)
Definition reindex (c : client) (db coll : string) : M unit :=
  _ ← the_server c;
  modify (emit (EReindex (client_uri c) db coll)).

End Driver.

(** ** The script *)

(** The namespace returned by [parse_cmdline_args].  [retention] is
    [None] when the flag is absent ([type=int], no default); the logging
    options only configure the log sink and are not modelled. *)
Record args := Args {
  database_ : string;
  server_ : list string;
  username : option string;
  password : option string;
  retention : option Z;
  rebuild : bool;
}.

(** The fields that [MongoDB.__init__] copies from the arguments; the
    private [__conn], initially [None], is the [__conn] of the state.
    The call of [logging.basicConfig] that ends [__init__], which fails
    on a level or a log file that [logging] does not accept, is not
    modelled: what follows is about the script from there on. *)
Record MongoDB := {
  mongodb_host_with_port : list string;
  mongodb_db : string;
  mongodb_user : option string;
  mongodb_password : option string;
}.

Definition MongoDB_init (a : args) : MongoDB :=
  {| mongodb_host_with_port := server_ a;
     mongodb_db := database_ a;
     mongodb_user := username a;
     mongodb_password := password a |}.

(** [str(x)], as [%s] formats an optional string: [None] prints as the
    four letters of its name. *)
Definition py_str (x : option string) : string :=
  match x with
  | None => "None"
  | Some s => s
  end.

(** [self.__conn[name]]: subscripting [None] is a [TypeError]. *)
Definition conn_getitem : M client :=
  c ← gets __conn;
  match c with
  | None => raise TypeError
  | Some cl => mret cl
  end.

Definition is_PyMongoError (e : exn) : bool :=
  match e with PyMongoError => true | _ => false end.

Definition close : M unit :=
  c ← gets __conn;
  match c with
  | None => mret ()
  | Some cl =>
      Driver.client_close cl;;
      modify (set_conn None)
  end.

Definition is_master : M bool :=
  cl ← conn_getitem;
  Driver.command_isMaster cl.

Definition connect (self : MongoDB) (host_with_port : string) : M unit :=
  c ← gets __conn;
  (if c is Some _ then close else mret ());;
  match mongodb_user self with
  | None =>
      try_except
        (cl ← Driver.MongoClient ("mongodb://" +:+ host_with_port);
         modify (set_conn (Some cl)))
        is_PyMongoError
        (λ _, log ERROR MsgConnectionError)
  | Some user =>
      try_except
        (cl ← Driver.MongoClient
                ("mongodb://" +:+ user +:+ ":" +:+ py_str (mongodb_password self)
                              +:+ "@" +:+ host_with_port);
         modify (set_conn (Some cl)))
        is_PyMongoError
        (λ _, log ERROR MsgConnectionError)
  end.

(** The [for host ...: ... break / else: ...] loop of [cut_old_data]. *)
Fixpoint find_primary (self : MongoDB) (hosts : list string) : M unit :=
  match hosts with
  | [] =>
      log ERROR MsgPrimaryNotFound;;
      sys_exit 1
  | host :: hosts' =>
      connect self host;;
      master ← is_master;
      if (master : bool)
      then log INFO (MsgConnectedPrimary host (mongodb_user self))
      else find_primary self hosts'
  end.

Definition cut_off_date (today : PyDate.date) (retention : Z) : result PyDate.date :=
  MonthDelta.rsub retention today.

Definition cut_off_timestamp (cut_off_date : PyDate.date) : Z :=
  PyCalendar.timegm (PyDate.timetuple cut_off_date) * 1000.

Definition lift {A} (r : result A) : M A := λ s, (r, s).

(** The body of the per-collection loop of [cut_old_data]. *)
Definition sweep_collection (cl : client) (db : string) (cutoff : Z) (coll : string) : M unit :=
  log INFO (MsgCollection coll);;
  how_many ← Driver.count cl db coll;
  how_many_to_cut_off ← Driver.find_count cl db coll (QLt "timestamp" cutoff);
  log INFO (MsgTotalToRemove how_many how_many_to_cut_off);;
  Driver.remove cl db coll (QLt "timestamp" cutoff);;
  how_many_left ← Driver.count cl db coll;
  log INFO (MsgRemovedLeft how_many_to_cut_off how_many_left).

Definition cut_old_data (self : MongoDB) (retention : Z) : M unit :=
  find_primary self (mongodb_host_with_port self);;
  mongo_db ← conn_getitem;
  collections ← Driver.collection_names mongo_db (mongodb_db self) false;
  today ← gets today;
  cut_off_date ← lift (cut_off_date today retention);
  let cut_off_timestamp := cut_off_timestamp cut_off_date in
  log INFO (MsgRetention retention cut_off_date);;
  for_each collections (sweep_collection mongo_db (mongodb_db self) cut_off_timestamp).

(** The body of the per-collection loop of [rebuild_indexes]. *)
Definition rebuild_collection (cl : client) (db : string) (coll : string) : M unit :=
  indexes_list ← Driver.index_information cl db coll;
  log DEBUG (MsgIndexList coll);;
  for_each indexes_list (λ idx, log DEBUG (MsgIndex idx));;
  Driver.reindex cl db coll;;
  log INFO (MsgRebuilded coll).

(** The host loop of [rebuild_indexes], with its [slave_found] flag. *)
Fixpoint rebuild_hosts (self : MongoDB) (hosts : list string) (slave_found : bool) : M bool :=
  match hosts with
  | [] => mret slave_found
  | host :: hosts' =>
      connect self host;;
      master ← is_master;
      if (master : bool) then rebuild_hosts self hosts' slave_found
      else
        log INFO (MsgRebuilding host);;
        mongo_db ← conn_getitem;
        collections ← Driver.collection_names mongo_db (mongodb_db self) false;
        for_each collections (rebuild_collection mongo_db (mongodb_db self));;
        rebuild_hosts self hosts' true
  end.

Definition rebuild_indexes (self : MongoDB) : M unit :=
  slave_found ← rebuild_hosts self (mongodb_host_with_port self) false;
  if negb (slave_found : bool)
  then log ERROR MsgSecondaryNotFound;; sys_exit 1
  else mret ().

(** Truth value of an optional integer: [None] and [0] are false. *)
Definition truthy (x : option Z) : bool :=
  match x with
  | None => false
  | Some n => negb (n =? 0)
  end.

(** The [if __name__ == '__main__':] block, after argument parsing. *)
Definition main (cmdline_args : args) : M unit :=
  let mongodb := MongoDB_init cmdline_args in
  (if truthy (retention cmdline_args)
   then cut_old_data mongodb (default 0 (retention cmdline_args))
   else log INFO MsgNoRetention);;
  (if rebuild cmdline_args
   then rebuild_indexes mongodb
   else log INFO MsgNoRebuild);;
  close.

(** ** Derived notions used in the statements *)

(** The URI that [connect] hands to [MongoClient] for a host. *)
Definition uri_of (self : MongoDB) (host : string) : string :=
  match mongodb_user self with
  | None => "mongodb://" +:+ host
  | Some user =>
      "mongodb://" +:+ user +:+ ":" +:+ py_str (mongodb_password self) +:+ "@" +:+ host
  end.

(** The state after [close]. *)
Definition closed (s : state) : state :=
  match __conn s with
  | None => s
  | Some cl =>
      set_conn None
        (set_clients (filter (λ c', c' ≠ cl) (open_clients s)) (next_id s)
           (emit (EClose cl) s))
  end.

(** The state after a [MongoClient] call that returned a client, stored
    in [__conn]. *)
Definition opened (uri : string) (s : state) : state :=
  set_conn (Some (Client (next_id s) uri))
    (set_clients (open_clients s ++ [Client (next_id s) uri]) (S (next_id s))
       (emit (EMongoClient uri) s)).

(** The state after a [MongoClient] call that raised, handled by the
    [except] clause. *)
Definition refused (uri : string) (s : state) : state :=
  emit (ELog ERROR MsgConnectionError) (emit (EMongoClient uri) s).

Definition connected (self : MongoDB) (host : string) (s : state) : state :=
  match servers s !! uri_of self host with
  | Some _ => opened (uri_of self host) (closed s)
  | None => refused (uri_of self host) (closed s)
  end.

Definition preserves {A} (P : state -> Prop) (m : M A) : Prop :=
  ∀ s, P s -> P (m s).2.

(** A predicate that only reads the connection field and the set of open
    clients is kept by everything that changes neither. *)
Definition conn_only (P : state -> Prop) : Prop :=
  ∀ s s', __conn s' = __conn s -> open_clients s' = open_clients s -> P s -> P s'.

(** The connections that are open are exactly the one held in [__conn],
    if there is one. *)
Definition single_connection (s : state) : Prop :=
  open_clients s = option_list (__conn s).

(** A host answers when the URI built for it reaches a deployment. *)
Definition reachable (self : MongoDB) (s : state) (host : string) : Prop :=
  is_Some (servers s !! uri_of self host).

(** The events of one [connect]: the held client is closed first, then
    the new client is built, and a refusal is logged. *)
Definition connect_events (self : MongoDB) (host : string) (s : state) : list event :=
  (if __conn s is Some cl then [EClose cl] else []) ++
  [EMongoClient (uri_of self host)] ++
  (if servers s !! uri_of self host is Some _ then []
   else [ELog ERROR MsgConnectionError]).

(** What a host answers to [isMaster], read off the deployment; [None]
    when the URI built for it reaches nothing. *)
Definition reports (self : MongoDB) (srv : gmap string server) (host : string) : option bool :=
  ismaster <$> srv !! uri_of self host.

(** The outcome of the primary search, host by host: the first host that
    answers as primary, [SystemExit 1] past the end of the list, and the
    [TypeError] of [None['admin']] at a host that could not be reached. *)
Fixpoint discover (self : MongoDB) (srv : gmap string server) (hosts : list string) : result string :=
  match hosts with
  | [] => Raise (SystemExit 1)
  | host :: hosts' =>
      match reports self srv host with
      | None => Raise TypeError
      | Some true => Ok host
      | Some false => discover self srv hosts'
      end
  end.

(** The state in which the primary search ends. *)
Fixpoint find_primary_state (self : MongoDB) (hosts : list string) (s : state) : state :=
  match hosts with
  | [] => emit (ELog ERROR MsgPrimaryNotFound) s
  | host :: hosts' =>
      match reports self (servers s) host with
      | None => connected self host s
      | Some true =>
          emit (ELog INFO (MsgConnectedPrimary host (mongodb_user self)))
               (connected self host s)
      | Some false => find_primary_state self hosts' (connected self host s)
      end
  end.

(** The hosts of the list up to and including the first one that answers
    as primary. *)
Fixpoint upto_first_primary (self : MongoDB) (srv : gmap string server)
    (hosts : list string) : list string :=
  match hosts with
  | [] => []
  | host :: hosts' =>
      host :: (if reports self srv host is Some true then []
               else upto_first_primary self srv hosts')
  end.

(** The URIs of the [MongoClient] calls of a trace, in order. *)
Definition connects (tr : list event) : list string :=
  omap (λ e, if e is EMongoClient uri then Some uri else None) tr.

(** The hosts on which the primary search calls [connect]: it goes on
    only past a host that answers as secondary. *)
Fixpoint probed (self : MongoDB) (srv : gmap string server) (hosts : list string) : list string :=
  match hosts with
  | [] => []
  | host :: hosts' =>
      host :: (if reports self srv host is Some false then probed self srv hosts' else [])
  end.

(** The database [db] of the deployment behind [uri], and a collection
    of it, as [client[db]] and [get_collection] give them: a name that
    does not exist yet reads as empty. *)
Definition database_at (srv : gmap string server) (uri db : string) : database :=
  match srv !! uri with
  | Some sv => default ∅ (dbs sv !! db)
  | None => ∅
  end.

Definition collection_at (srv : gmap string server) (uri db coll : string) : collection :=
  default (Collection [] []) (database_at srv uri db !! coll).

(** The names that [collection_names(0)] returns. *)
Definition swept_names (srv : gmap string server) (uri db : string) : list string :=
  filter (λ name, String.prefix "system." name = false)
         (map_to_list (database_at srv uri db)).*1.

(** The events of one round of the collection loop of [cut_old_data],
    on a collection that holds [k]. *)
Definition sweep_events (uri db coll : string) (q : query) (k : collection) : list event :=
  [ELog INFO (MsgCollection coll);
   ELog INFO (MsgTotalToRemove (length (docs k))
                               (length (filter (λ d, matches q d = true) (docs k))));
   ERemove uri db coll q;
   ELog INFO (MsgRemovedLeft (length (filter (λ d, matches q d = true) (docs k)))
                             (length (docs (Driver.remove_docs q k))))].

(** The state after one round of the collection loop. *)
Definition sweep_collection_state (uri db : string) (cutoff : Z) (coll : string)
    (s : state) : state :=
  let q := QLt "timestamp" cutoff in
  State (__conn s) (today s)
        (Driver.update_collection (Driver.remove_docs q) uri db coll (servers s))
        (open_clients s) (next_id s)
        (trace s ++ sweep_events uri db coll q (collection_at (servers s) uri db coll)).

(** The state after the whole collection loop. *)
Definition sweep_state (uri db : string) (cutoff : Z) (names : list string)
    (s : state) : state :=
  foldl (λ s coll, sweep_collection_state uri db cutoff coll s) s names.

(** The outcome of [cut_old_data], written out: the primary search, then
    the cutoff, then the collection loop on the primary. *)
Definition cut_old_data_outcome (self : MongoDB) (retention : Z) (s : state) : result unit * state :=
  let hosts := mongodb_host_with_port self in
  let s1 := find_primary_state self hosts s in
  match discover self (servers s) hosts with
  | Raise e => (Raise e, s1)
  | Ok p =>
      match cut_off_date (today s) retention with
      | Raise e => (Raise e, s1)
      | Ok d =>
          (Ok (),
           sweep_state (uri_of self p) (mongodb_db self) (cut_off_timestamp d)
             (swept_names (servers s) (uri_of self p) (mongodb_db self))
             (emit (ELog INFO (MsgRetention retention d)) s1))
      end
  end.

(** The [remove] calls of a trace, in order. *)
Definition removals (tr : list event) : list (string * string * string) :=
  omap (λ e, if e is ERemove uri db coll _ then Some (uri, db, coll) else None) tr.

(** The [reindex] calls of a trace, in order. *)
Definition reindexes (tr : list event) : list (string * string * string) :=
  omap (λ e, if e is EReindex uri db coll then Some (uri, db, coll) else None) tr.

(** ** A small deployment, for concrete runs

    Three hosts A, B and C with the same database [prod]; B is the
    primary.  The script runs without credentials on 31 March 2018. *)
Module Sample.

Definition doc (t : Z) : document := {[ "timestamp" := VInt t ]}.

Definition prod : database :=
  {[ "events" := Collection [doc 5; doc 2000000000000; {[ "x" := VInt 1 ]}] ["_id_"];
     "system.js" := Collection [doc 5] ["_id_"] ]}.

Definition secondary : server := Server false {[ "prod" := prod ]}.
Definition primary : server := Server true {[ "prod" := prod ]}.

Definition self : MongoDB :=
  {| mongodb_host_with_port := ["A"; "B"; "C"];
     mongodb_db := "prod";
     mongodb_user := None;
     mongodb_password := None |}.

Definition start : state :=
  State None (PyDate.Date 2018 3 31)
        {[ "mongodb://A" := secondary; "mongodb://B" := primary;
           "mongodb://C" := secondary ]}
        [] 0 [].

(** The same deployment with host A down. *)
Definition start_A_down : state :=
  State None (PyDate.Date 2018 3 31)
        {[ "mongodb://B" := primary; "mongodb://C" := secondary ]}
        [] 0 [].

(** The same deployment with no primary. *)
Definition start_no_primary : state :=
  State None (PyDate.Date 2018 3 31)
        {[ "mongodb://A" := secondary; "mongodb://B" := secondary;
           "mongodb://C" := secondary ]}
        [] 0 [].

(** A user without a password. *)
Definition self_user : MongoDB :=
  {| mongodb_host_with_port := ["A"];
     mongodb_db := "prod";
     mongodb_user := Some "ops";
     mongodb_password := None |}.

End Sample.

(** ** The retention claim, per collection

    What the sweep with cutoff [C] is said to do to a collection that
    held [k] and now holds [k']: aged documents are gone, documents at or
    after the cutoff and documents without a timestamp are still there,
    and the count left is the count before less the count matched. *)
Definition collection_swept (C : Z) (k k' : collection) : Prop :=
  (∀ doc t, doc !! "timestamp" = Some (VInt t) -> t < C -> doc ∉ docs k') ∧
  (∀ doc t, doc ∈ docs k -> doc !! "timestamp" = Some (VInt t) -> C <= t -> doc ∈ docs k') ∧
  (∀ doc, doc ∈ docs k -> doc !! "timestamp" = None -> doc ∈ docs k') ∧
  length (docs k') =
    (length (docs k) -
     length (filter (λ doc, matches (QLt "timestamp" C) doc = true) (docs k)))%nat.

(** The same for every collection of a database. *)
Definition every_collection_swept (C : Z) (db db' : database) : Prop :=
  ∀ coll k, db !! coll = Some k ->
    ∃ k', db' !! coll = Some k' ∧ collection_swept C k k'.

(** Events of a run in which nothing was matched for removal. *)
Definition nothing_to_remove (e : event) : Prop :=
  match e with
  | ELog _ (MsgTotalToRemove _ n) => n = 0%nat
  | ELog _ (MsgRemovedLeft n _) => n = 0%nat
  | _ => True
  end.

(** ** The index rebuild, written out *)

Definition add_events (evs : list event) (s : state) : state :=
  State (__conn s) (today s) (servers s) (open_clients s) (next_id s) (trace s ++ evs).

(** The events of one round of the collection loop of [rebuild_indexes],
    on a collection that holds [k]. *)
Definition rebuild_collection_events (uri db coll : string) (k : collection) : list event :=
  [ELog DEBUG (MsgIndexList coll)] ++
  ((λ idx, ELog DEBUG (MsgIndex idx)) <$> indexes k) ++
  [EReindex uri db coll; ELog INFO (MsgRebuilded coll)].

Definition rebuild_events (srv : gmap string server) (uri db : string)
    (names : list string) : list event :=
  names ≫= λ coll, rebuild_collection_events uri db coll (collection_at srv uri db coll).

(** The outcome of the host loop of [rebuild_indexes]. *)
Fixpoint rebuild_outcome (self : MongoDB) (hosts : list string) (slave_found : bool)
    (s : state) : result bool * state :=
  match hosts with
  | [] => (Ok slave_found, s)
  | host :: hosts' =>
      let s1 := connected self host s in
      match reports self (servers s) host with
      | None => (Raise TypeError, s1)
      | Some true => rebuild_outcome self hosts' slave_found s1
      | Some false =>
          rebuild_outcome self hosts' true
            (add_events
               (ELog INFO (MsgRebuilding host) ::
                rebuild_events (servers s) (uri_of self host) (mongodb_db self)
                  (swept_names (servers s) (uri_of self host) (mongodb_db self)))
               s1)
      end
  end.

(** The hosts that the rebuild loop gets to: those before the first one
    that cannot be reached. *)
Fixpoint visited (self : MongoDB) (srv : gmap string server) (hosts : list string) : list string :=
  match hosts with
  | [] => []
  | host :: hosts' =>
      if srv !! uri_of self host is Some _ then host :: visited self srv hosts' else []
  end.

(** The [reindex] calls made on a host: none on a primary, one per
    enumerated collection on a secondary. *)
Definition rebuilt_on (self : MongoDB) (srv : gmap string server) (host : string) :
    list (string * string * string) :=
  if reports self srv host is Some false
  then (λ coll, (uri_of self host, mongodb_db self, coll)) <$>
       swept_names srv (uri_of self host) (mongodb_db self)
  else [].

(** The rebuild claim as worded: an index rebuild on every collection of
    the target database of every host that answers as secondary. *)
Definition rebuilt_everywhere (self : MongoDB) (s s' : state) : Prop :=
  ∀ host coll,
    host ∈ mongodb_host_with_port self ->
    reports self (servers s) host = Some false ->
    is_Some (database_at (servers s) (uri_of self host) (mongodb_db self) !! coll) ->
    (uri_of self host, mongodb_db self, coll) ∈ reindexes (trace s').

(** ** The cutoff, following the specification

    "Today minus N months, with the day of the month clamped into the
    shorter target month, converted to whole-second UTC epoch and
    multiplied by 1000", written without reference to the code: months are
    counted from January of year 0, and the days up to a date are the
    lengths of the years and months before it, added one after another. *)
Module CutoffSpec.
Import PyDate.

Definition leap_year (y : Z) : bool :=
  (y mod 4 =? 0) && (negb (y mod 100 =? 0) || (y mod 400 =? 0)).

Definition year_length (y : Z) : Z := if leap_year y then 366 else 365.

Definition month_length (y m : Z) : Z :=
  if m =? 2 then (if leap_year y then 29 else 28)
  else if (m =? 4) || (m =? 6) || (m =? 9) || (m =? 11) then 30
  else 31.

(** [f 1 + ... + f n] *)
Fixpoint sum_upto (f : Z -> Z) (n : nat) : Z :=
  match n with
  | O => 0
  | S n' => sum_upto f n' + f (Z.of_nat n)
  end.

Definition minus_months (t : date) (n : Z) : date :=
  let k := 12 * year t + (month t - 1) - n in
  let y := k / 12 in
  let m := k mod 12 + 1 in
  Date y m (Z.min (day t) (month_length y m)).

(** The number of the day, counting 1 January of year 1 as day 1. *)
Definition day_number (t : date) : Z :=
  sum_upto year_length (Z.to_nat (year t - 1)) +
  sum_upto (month_length (year t)) (Z.to_nat (month t - 1)) +
  day t.

(** Seconds from 1970-01-01T00:00:00Z to midnight UTC of the date. *)
Definition epoch_seconds (t : date) : Z :=
  (day_number t - day_number (Date 1970 1 1)) * 86400.

Definition cutoff (today : date) (n : Z) : Z :=
  epoch_seconds (minus_months today n) * 1000.

End CutoffSpec.

(** ** The entry point, step by step *)

Definition with_retention (r : option Z) (a : args) : args :=
  Args (database_ a) (server_ a) (username a) (password a) r (rebuild a).

(** What [main] does after the retention step. *)
Definition after_retention (a : args) : M unit :=
  (if rebuild a
   then rebuild_indexes (MongoDB_init a)
   else log INFO MsgNoRebuild) ≫= λ _, close.

(** The ordinal of the last day before the month with index [k], months
    being counted from January of year 0: the days before its year and
    the days of that year before it. *)
Definition month_start (k : Z) : Z :=
  PyDate._days_before_year (k / 12) + PyDate._days_before_month (k / 12) (k mod 12 + 1).

(** * Properties *)

(** ** The calendar functions on known values *)

Example days_before_month_table :
  PyDate._DAYS_BEFORE_MONTH = [-1; 0; 31; 59; 90; 120; 151; 181; 212; 243; 273; 304; 334].
Proof. reflexivity. Qed.

Example epoch_ord : PyCalendar._EPOCH_ORD = 719163.
Proof. reflexivity. Qed.

Example march_31_minus_1 :
  MonthDelta.rsub 1 (PyDate.Date 2018 3 31) = Ok (PyDate.Date 2018 2 28).
Proof. reflexivity. Qed.

(** ** Running the monad *)

Ltac unfold_M :=
  unfold mbind, M_bind, mret, M_ret, gets, modify, raise, log, sys_exit, lift,
    try_except in *.

Lemma run_bind {A B} (m : M A) (f : A -> M B) s a s' :
  m s = (Ok a, s') -> (m ≫= f) s = f a s'.
Proof. intros H. unfold mbind, M_bind. now rewrite H. Qed.

Lemma run_bind_raise {A B} (m : M A) (f : A -> M B) s e s' :
  m s = (Raise e, s') -> (m ≫= f) s = (Raise e, s').
Proof. intros H. unfold mbind, M_bind. now rewrite H. Qed.

(** ** Connections *)

Lemma close_run s : close s = (Ok (), closed s).
Proof.
  unfold close, closed, Driver.client_close. unfold_M.
  destruct s as [c t sv cs n tr]; simpl. now destruct c.
Qed.

Lemma servers_closed s : servers (closed s) = servers s.
Proof. unfold closed. now destruct (__conn s). Qed.

Lemma today_closed s : today (closed s) = today s.
Proof. unfold closed. now destruct (__conn s). Qed.

Lemma conn_closed s : __conn (closed s) = None.
Proof. unfold closed. now destruct (__conn s) eqn:E. Qed.

Lemma connect_run self host s :
  connect self host s = (Ok (), connected self host s).
Proof.
  unfold connect, connected, uri_of.
  rewrite (run_bind _ _ s (__conn s) s) by reflexivity.
  assert (Hc : (if __conn s is Some _ then close else mret ()) s = (Ok (), closed s)).
  { unfold closed. destruct (__conn s) eqn:E.
    - rewrite close_run. unfold closed. now rewrite E.
    - reflexivity. }
  rewrite (run_bind _ _ _ _ _ Hc).
  pose proof (servers_closed s) as Hs.
  destruct (mongodb_user self) as [user|];
    unfold Driver.MongoClient, opened, refused; unfold_M; simpl;
    rewrite Hs; now destruct (servers s !! _).
Qed.

Lemma servers_connected self host s : servers (connected self host s) = servers s.
Proof.
  unfold connected. destruct (servers s !! _); simpl; apply servers_closed.
Qed.

Lemma today_connected self host s : today (connected self host s) = today s.
Proof.
  unfold connected. destruct (servers s !! _); simpl; apply today_closed.
Qed.

(** ** State predicates kept by a computation *)

Section Preserves.
Context (P : state -> Prop).

Lemma preserves_ret {A} (a : A) : preserves P (mret a).
Proof. now intros s. Qed.

Lemma preserves_raise {A} (e : exn) : preserves P (raise (A:=A) e).
Proof. now intros s. Qed.

Lemma preserves_lift {A} (r : result A) : preserves P (lift r).
Proof. now intros s. Qed.

Lemma preserves_gets {A} (f : state -> A) : preserves P (gets f).
Proof. now intros s. Qed.

Lemma preserves_bind {A B} (m : M A) (f : A -> M B) :
  preserves P m -> (∀ a, preserves P (f a)) -> preserves P (m ≫= f).
Proof.
  intros Hm Hf s Hs. unfold mbind, M_bind.
  specialize (Hm s Hs). destruct (m s) as [[a|e] s']; simpl in *; [|done].
  now apply Hf.
Qed.

Lemma preserves_try_except {A} (body : M A) catches handler :
  preserves P body -> (∀ e, preserves P (handler e)) ->
  preserves P (try_except body catches handler).
Proof.
  intros Hb Hh s Hs. unfold try_except.
  specialize (Hb s Hs). destruct (body s) as [[a|e] s']; simpl in *; [done|].
  destruct (catches e); [now apply Hh | done].
Qed.

Lemma preserves_for_each {A} (l : list A) (body : A -> M unit) :
  (∀ x, preserves P (body x)) -> preserves P (for_each l body).
Proof.
  intros Hb. induction l as [|x l IH]; simpl.
  - apply preserves_ret.
  - apply preserves_bind; [apply Hb | intros _; apply IH].
Qed.

Lemma preserves_if {A} (b : bool) (m1 m2 : M A) :
  preserves P m1 -> preserves P m2 -> preserves P (if b then m1 else m2).
Proof. now destruct b. Qed.
End Preserves.

Section ConnOnly.
Context (P : state -> Prop) (HP : conn_only P).

Local Ltac primitive :=
  intros s Hs;
  unfold Driver.remove, Driver.reindex, Driver.index_information,
    Driver.find_count, Driver.count, Driver.collection_names,
    Driver.the_collection, Driver.the_database, Driver.command_isMaster,
    Driver.the_server, conn_getitem;
  unfold_M; simpl;
  repeat (case_match; simplify_eq/=); try done;
  try (apply (HP s); done).

Lemma preserves_log lvl m : preserves P (log lvl m).
Proof. primitive. Qed.

Lemma preserves_command_isMaster c : preserves P (Driver.command_isMaster c).
Proof. primitive. Qed.

Lemma preserves_collection_names c db b :
  preserves P (Driver.collection_names c db b).
Proof. primitive. Qed.

Lemma preserves_count c db coll : preserves P (Driver.count c db coll).
Proof. primitive. Qed.

Lemma preserves_find_count c db coll q :
  preserves P (Driver.find_count c db coll q).
Proof. primitive. Qed.

Lemma preserves_index_information c db coll :
  preserves P (Driver.index_information c db coll).
Proof. primitive. Qed.

Lemma preserves_remove c db coll q : preserves P (Driver.remove c db coll q).
Proof.
  intros s Hs. unfold Driver.remove, Driver.the_server. unfold_M. simpl.
  destruct (servers s !! client_uri c); simpl; [apply (HP s); done | done].
Qed.

Lemma preserves_reindex c db coll : preserves P (Driver.reindex c db coll).
Proof.
  intros s Hs. unfold Driver.reindex, Driver.the_server. unfold_M. simpl.
  destruct (servers s !! client_uri c); simpl; [apply (HP s); done | done].
Qed.

Lemma preserves_conn_getitem : preserves P conn_getitem.
Proof. primitive. Qed.

Lemma preserves_is_master : preserves P is_master.
Proof.
  unfold is_master.
  apply preserves_bind; [apply preserves_conn_getitem | apply preserves_command_isMaster].
Qed.

Lemma preserves_sweep_collection c db cutoff coll :
  preserves P (sweep_collection c db cutoff coll).
Proof.
  unfold sweep_collection.
  apply preserves_bind; [apply preserves_log | intros _].
  apply preserves_bind; [apply preserves_count | intros ?].
  apply preserves_bind; [apply preserves_find_count | intros ?].
  apply preserves_bind; [apply preserves_log | intros _].
  apply preserves_bind; [apply preserves_remove | intros _].
  apply preserves_bind; [apply preserves_count | intros ?].
  apply preserves_log.
Qed.

Lemma preserves_rebuild_collection c db coll :
  preserves P (rebuild_collection c db coll).
Proof.
  unfold rebuild_collection.
  apply preserves_bind; [apply preserves_index_information | intros ?].
  apply preserves_bind; [apply preserves_log | intros _].
  apply preserves_bind; [|intros _].
  { apply preserves_for_each. intros ?. apply preserves_log. }
  apply preserves_bind; [apply preserves_reindex | intros _].
  apply preserves_log.
Qed.
End ConnOnly.

(** ** At most one open connection *)

Lemma single_connection_conn_only : conn_only single_connection.
Proof. intros s s' Hc Ho. unfold single_connection. now rewrite Hc, Ho. Qed.

Lemma single_connection_at_most_one s :
  single_connection s -> (length (open_clients s) <= 1)%nat.
Proof. unfold single_connection. intros ->. destruct (__conn s); simpl; lia. Qed.

Lemma closed_no_clients s : single_connection s -> open_clients (closed s) = [].
Proof.
  unfold single_connection, closed. destruct (__conn s) as [cl|] eqn:E; simpl.
  - intros ->. simpl. rewrite filter_cons. now rewrite decide_False by (intros H; now apply H).
  - done.
Qed.

Lemma single_connection_closed s : single_connection s -> single_connection (closed s).
Proof.
  intros H. unfold single_connection. now rewrite closed_no_clients, conn_closed.
Qed.

Lemma single_connection_connected self host s :
  single_connection s -> single_connection (connected self host s).
Proof.
  intros H. pose proof (closed_no_clients s H) as Ho.
  pose proof (conn_closed s) as Hc.
  unfold connected, single_connection, opened, refused.
  destruct (servers s !! _); simpl; rewrite Ho; [done | now rewrite Hc].
Qed.

Lemma preserves_close : preserves single_connection close.
Proof. intros s H. rewrite close_run. now apply single_connection_closed. Qed.

Lemma preserves_connect self host : preserves single_connection (connect self host).
Proof. intros s H. rewrite connect_run. now apply single_connection_connected. Qed.

Lemma preserves_find_primary self hosts :
  preserves single_connection (find_primary self hosts).
Proof.
  pose proof single_connection_conn_only as HP.
  induction hosts as [|host hosts IH]; simpl.
  - apply preserves_bind; [now apply preserves_log | intros _; apply preserves_raise].
  - apply preserves_bind; [apply preserves_connect | intros _].
    apply preserves_bind; [now apply preserves_is_master | intros master].
    destruct master; [now apply preserves_log | apply IH].
Qed.

Lemma preserves_cut_old_data self retention :
  preserves single_connection (cut_old_data self retention).
Proof.
  pose proof single_connection_conn_only as HP.
  unfold cut_old_data.
  apply preserves_bind; [apply preserves_find_primary | intros _].
  apply preserves_bind; [now apply preserves_conn_getitem | intros mongo_db].
  apply preserves_bind; [now apply preserves_collection_names | intros collections].
  apply preserves_bind; [apply preserves_gets | intros t].
  apply preserves_bind; [apply preserves_lift | intros d].
  apply preserves_bind; [now apply preserves_log | intros _].
  apply preserves_for_each. intros coll. now apply preserves_sweep_collection.
Qed.

Lemma preserves_rebuild_hosts self hosts slave_found :
  preserves single_connection (rebuild_hosts self hosts slave_found).
Proof.
  pose proof single_connection_conn_only as HP.
  revert slave_found. induction hosts as [|host hosts IH]; intros slave_found; simpl.
  - apply preserves_ret.
  - apply preserves_bind; [apply preserves_connect | intros _].
    apply preserves_bind; [now apply preserves_is_master | intros master].
    destruct master; [apply IH|].
    apply preserves_bind; [now apply preserves_log | intros _].
    apply preserves_bind; [now apply preserves_conn_getitem | intros mongo_db].
    apply preserves_bind; [now apply preserves_collection_names | intros collections].
    apply preserves_bind; [|intros _; apply IH].
    apply preserves_for_each. intros coll. now apply preserves_rebuild_collection.
Qed.

Lemma preserves_rebuild_indexes self :
  preserves single_connection (rebuild_indexes self).
Proof.
  pose proof single_connection_conn_only as HP.
  unfold rebuild_indexes.
  apply preserves_bind; [apply preserves_rebuild_hosts | intros slave_found].
  destruct (negb slave_found); [|apply preserves_ret].
  apply preserves_bind; [now apply preserves_log | intros _; apply preserves_raise].
Qed.

Lemma preserves_main a : preserves single_connection (main a).
Proof.
  pose proof single_connection_conn_only as HP.
  unfold main.
  apply preserves_bind; [|intros _].
  { destruct (truthy _); [apply preserves_cut_old_data | now apply preserves_log]. }
  apply preserves_bind; [|intros _; apply preserves_close].
  destruct (rebuild a); [apply preserves_rebuild_indexes | now apply preserves_log].
Qed.

Lemma trace_connected self host s :
  trace (connected self host s) = trace s ++ connect_events self host s.
Proof.
  unfold connected, connect_events, opened, refused, closed.
  destruct (servers s !! _), (__conn s); simpl;
    rewrite <- ?app_assoc; reflexivity.
Qed.

Lemma conn_connected self host s :
  __conn (connected self host s) =
  if servers s !! uri_of self host is Some _
  then Some (Client (next_id s) (uri_of self host)) else None.
Proof.
  unfold connected, opened, refused.
  destruct (servers s !! _); simpl.
  - unfold closed. now destruct (__conn s).
  - apply conn_closed.
Qed.

(** ** Primary discovery *)

Lemma is_master_connected self host s :
  is_master (connected self host s) =
  (match reports self (servers s) host with
   | Some b => Ok b
   | None => Raise TypeError
   end, connected self host s).
Proof.
  unfold is_master, conn_getitem, Driver.command_isMaster, Driver.the_server, reports.
  unfold_M. simpl. rewrite conn_connected.
  destruct (servers s !! uri_of self host) as [sv|] eqn:E; simpl; [|done].
  now rewrite servers_connected, E.
Qed.

Lemma find_primary_run self hosts s :
  find_primary self hosts s =
  (match discover self (servers s) hosts with Ok _ => Ok () | Raise e => Raise e end,
   find_primary_state self hosts s).
Proof.
  revert s. induction hosts as [|host hosts IH]; intros s; [done|].
  simpl. rewrite (run_bind _ _ _ _ _ (connect_run self host s)).
  destruct (reports self (servers s) host) as [[|]|] eqn:E.
  - rewrite (run_bind _ _ _ true (connected self host s))
      by (now rewrite is_master_connected, E).
    reflexivity.
  - rewrite (run_bind _ _ _ false (connected self host s))
      by (now rewrite is_master_connected, E).
    rewrite IH. now rewrite servers_connected.
  - apply run_bind_raise. now rewrite is_master_connected, E.
Qed.

Lemma servers_find_primary_state self hosts s :
  servers (find_primary_state self hosts s) = servers s.
Proof.
  revert s. induction hosts as [|host hosts IH]; intros s; simpl; [done|].
  destruct (reports self (servers s) host) as [[|]|]; simpl;
    rewrite ?IH; apply servers_connected.
Qed.

Lemma today_find_primary_state self hosts s :
  today (find_primary_state self hosts s) = today s.
Proof.
  revert s. induction hosts as [|host hosts IH]; intros s; simpl; [done|].
  destruct (reports self (servers s) host) as [[|]|]; simpl;
    rewrite ?IH; apply today_connected.
Qed.

Lemma discover_Ok_inv self srv hosts p :
  discover self srv hosts = Ok p ->
  ∃ before after, hosts = before ++ p :: after ∧
    Forall (λ h, reports self srv h = Some false) before ∧
    reports self srv p = Some true.
Proof.
  induction hosts as [|host hosts IH]; simpl; [done|].
  destruct (reports self srv host) as [[|]|] eqn:E; [| |done].
  - intros [= ->]. now exists [], hosts.
  - intros H. destruct (IH H) as (before & after & -> & Hb & Hp).
    exists (host :: before), after. split; [done|]. split; [|done].
    now constructor.
Qed.

Lemma discover_Ok self srv before p after :
  Forall (λ h, reports self srv h = Some false) before ->
  reports self srv p = Some true ->
  discover self srv (before ++ p :: after) = Ok p.
Proof.
  intros Hb Hp. induction Hb as [|h before Hh Hb IH]; simpl.
  - now rewrite Hp.
  - now rewrite Hh.
Qed.

(** After a successful search the connection is to the primary found. *)
Lemma conn_find_primary_state self hosts s p :
  discover self (servers s) hosts = Ok p ->
  ∃ n, __conn (find_primary_state self hosts s) = Some (Client n (uri_of self p)).
Proof.
  revert s. induction hosts as [|host hosts IH]; intros s; simpl; [done|].
  destruct (reports self (servers s) host) as [[|]|] eqn:E; [| |done].
  - intros [= ->]. exists (next_id s). simpl. rewrite conn_connected.
    unfold reports in E. now destruct (servers s !! uri_of self p).
  - intros H. apply IH. now rewrite servers_connected.
Qed.

(** ** The collection loop of the retention sweep *)

Lemma the_collection_run cl db coll s :
  is_Some (servers s !! client_uri cl) ->
  Driver.the_collection cl db coll s =
  (Ok (collection_at (servers s) (client_uri cl) db coll), s).
Proof.
  intros [sv E].
  unfold Driver.the_collection, Driver.the_database, Driver.the_server,
    collection_at, database_at.
  unfold_M. simpl. now rewrite E.
Qed.

Lemma collection_names_run cl db s :
  is_Some (servers s !! client_uri cl) ->
  Driver.collection_names cl db false s =
  (Ok (swept_names (servers s) (client_uri cl) db), s).
Proof.
  intros [sv E].
  unfold Driver.collection_names, Driver.the_database, Driver.the_server,
    swept_names, database_at.
  unfold_M. simpl. now rewrite E.
Qed.

Lemma database_at_update f uri db coll srv uri' db' :
  database_at (Driver.update_collection f uri db coll srv) uri' db' =
  if decide (uri = uri' ∧ db = db')
  then alter f coll (database_at srv uri' db')
  else database_at srv uri' db'.
Proof.
  unfold database_at, Driver.update_collection.
  rewrite lookup_alter. destruct (decide (uri = uri')) as [->|Hu].
  - destruct (srv !! uri') as [sv|] eqn:E; simpl.
    + rewrite lookup_alter. destruct (decide (db = db')) as [->|Hd].
      * rewrite decide_True by done.
        destruct (dbs sv !! db') as [d|]; simpl; [done|].
        apply map_eq. intros i. rewrite lookup_alter. rewrite lookup_empty.
        now destruct (decide (coll = i)).
      * rewrite decide_False by (intros [_ ?]; done). done.
    + destruct (decide _); [|done].
      apply map_eq. intros i. rewrite lookup_alter, lookup_empty.
      now destruct (decide (coll = i)).
  - rewrite decide_False by (intros [? _]; done). done.
Qed.

Lemma collection_at_update q uri db coll srv uri' db' coll' :
  collection_at (Driver.update_collection (Driver.remove_docs q) uri db coll srv)
                uri' db' coll' =
  if decide (uri = uri' ∧ db = db' ∧ coll = coll')
  then Driver.remove_docs q (collection_at srv uri' db' coll')
  else collection_at srv uri' db' coll'.
Proof.
  unfold collection_at. rewrite database_at_update.
  destruct (decide (uri = uri' ∧ db = db')) as [[-> ->]|H].
  - rewrite lookup_alter. destruct (decide (coll = coll')) as [->|Hc].
    + rewrite decide_True by done.
      now destruct (database_at srv uri' db' !! coll').
    + rewrite decide_False by (intros (_ & _ & ?); done). done.
  - rewrite decide_False by (intros (? & ? & _); auto). done.
Qed.

Lemma ismaster_update f uri db coll srv uri' :
  ismaster <$> Driver.update_collection f uri db coll srv !! uri' =
  ismaster <$> srv !! uri'.
Proof.
  unfold Driver.update_collection. rewrite lookup_alter.
  destruct (decide (uri = uri')) as [->|]; [|done].
  now destruct (srv !! uri').
Qed.

Lemma is_Some_update f uri db coll srv uri' :
  is_Some (Driver.update_collection f uri db coll srv !! uri') ↔ is_Some (srv !! uri').
Proof.
  rewrite <- !(fmap_is_Some ismaster). now rewrite ismaster_update.
Qed.

Lemma sweep_collection_run cl db cutoff coll s :
  is_Some (servers s !! client_uri cl) ->
  sweep_collection cl db cutoff coll s =
  (Ok (), sweep_collection_state (client_uri cl) db cutoff coll s).
Proof.
  intros Hs. unfold sweep_collection, Driver.count, Driver.find_count.
  rewrite (run_bind _ _ s () (emit (ELog INFO (MsgCollection coll)) s)) by done.
  set (s1 := emit _ s).
  assert (H1 : is_Some (servers s1 !! client_uri cl)) by done.
  rewrite (run_bind _ _ s1 (length (docs (collection_at (servers s) (client_uri cl) db coll))) s1)
    by (now rewrite (run_bind _ _ _ _ _ (the_collection_run cl db coll s1 H1))).
  rewrite (run_bind _ _ s1
             (length (filter (λ d, matches (QLt "timestamp" cutoff) d = true)
                        (docs (collection_at (servers s) (client_uri cl) db coll)))) s1)
    by (now rewrite (run_bind _ _ _ _ _ (the_collection_run cl db coll s1 H1))).
  set (k := collection_at (servers s) (client_uri cl) db coll).
  set (q := QLt "timestamp" cutoff).
  set (s2 := emit (ELog INFO (MsgTotalToRemove (length (docs k))
                     (length (filter (λ d, matches q d = true) (docs k))))) s1).
  rewrite (run_bind _ _ s1 () s2) by done.
  set (s3 := set_servers
               (Driver.update_collection (Driver.remove_docs q) (client_uri cl) db coll (servers s))
               (emit (ERemove (client_uri cl) db coll q) s2)).
  assert (Hrm : Driver.remove cl db coll q s2 = (Ok (), s3)).
  { unfold Driver.remove, Driver.the_server. unfold_M. simpl.
    destruct Hs as [sv ->]. reflexivity. }
  rewrite (run_bind _ _ s2 () s3 Hrm).
  assert (H3 : is_Some (servers s3 !! client_uri cl)) by (now apply is_Some_update).
  rewrite (run_bind _ _ s3 (length (docs (Driver.remove_docs q k))) s3).
  2:{ rewrite (run_bind _ _ _ _ _ (the_collection_run cl db coll s3 H3)).
      unfold s3 at 2. simpl. rewrite collection_at_update.
      now rewrite decide_True by done. }
  unfold log, modify, sweep_collection_state, sweep_events, s3, s2, s1, emit, set_servers.
  cbn [__conn today servers open_clients next_id trace].
  now rewrite <- !app_assoc.
Qed.

Lemma is_Some_sweep_state uri db cutoff names s uri' :
  is_Some (servers (sweep_state uri db cutoff names s) !! uri') ↔
  is_Some (servers s !! uri').
Proof.
  revert s. induction names as [|coll names IH]; intros s; simpl; [done|].
  unfold sweep_state in *. simpl. rewrite IH. simpl. apply is_Some_update.
Qed.

Lemma for_each_sweep_run cl db cutoff names s :
  is_Some (servers s !! client_uri cl) ->
  for_each names (sweep_collection cl db cutoff) s =
  (Ok (), sweep_state (client_uri cl) db cutoff names s).
Proof.
  revert s. induction names as [|coll names IH]; intros s Hs; simpl; [done|].
  rewrite (run_bind _ _ _ _ _ (sweep_collection_run cl db cutoff coll s Hs)).
  apply IH. simpl. now apply is_Some_update.
Qed.

Lemma cut_old_data_run self retention s :
  cut_old_data self retention s = cut_old_data_outcome self retention s.
Proof.
  unfold cut_old_data, cut_old_data_outcome.
  pose proof (find_primary_run self (mongodb_host_with_port self) s) as Hf.
  set (s1 := find_primary_state self (mongodb_host_with_port self) s) in *.
  destruct (discover self (servers s) (mongodb_host_with_port self)) as [p|e] eqn:Hd;
    [|now apply run_bind_raise].
  rewrite (run_bind _ _ _ _ _ Hf).
  destruct (conn_find_primary_state _ _ _ _ Hd) as [n Hn]. fold s1 in Hn.
  destruct (discover_Ok_inv _ _ _ _ Hd) as (before & after & _ & _ & Hp).
  assert (Hs1 : servers s1 = servers s) by apply servers_find_primary_state.
  assert (Ht1 : today s1 = today s) by apply today_find_primary_state.
  assert (His : is_Some (servers s1 !! uri_of self p)).
  { rewrite Hs1. unfold reports in Hp. now destruct (servers s !! uri_of self p). }
  rewrite (run_bind _ _ s1 (Client n (uri_of self p)) s1)
    by (unfold conn_getitem; unfold_M; simpl; now rewrite Hn).
  rewrite (run_bind _ _ _ _ _
             (collection_names_run (Client n (uri_of self p)) (mongodb_db self) s1 His)).
  rewrite (run_bind _ _ s1 (today s) s1) by (unfold gets; now rewrite Ht1).
  destruct (cut_off_date (today s) retention) as [d|e] eqn:Hc;
    [|now apply run_bind_raise].
  rewrite (run_bind _ _ s1 d s1) by done.
  rewrite (run_bind _ _ s1 () (emit (ELog INFO (MsgRetention retention d)) s1)) by done.
  rewrite for_each_sweep_run by done. simpl. now rewrite Hs1.
Qed.

(** ** What the collection loop leaves in the deployment *)

Lemma remove_docs_idemp q k :
  Driver.remove_docs q (Driver.remove_docs q k) = Driver.remove_docs q k.
Proof.
  unfold Driver.remove_docs. simpl. f_equal.
  apply list_filter_filter_l. auto.
Qed.

Lemma filter_matches_length q (l : list document) :
  (length (filter (λ d, matches q d = false) l) +
   length (filter (λ d, matches q d = true) l) = length l)%nat.
Proof.
  induction l as [|d l IH]; [done|].
  rewrite !filter_cons. destruct (matches q d) eqn:E.
  - rewrite decide_False by done. rewrite decide_True by done. simpl. lia.
  - rewrite decide_True by done. rewrite decide_False by done. simpl. lia.
Qed.

Lemma filter_matches_clean q (l : list document) :
  filter (λ d, matches q d = true) (filter (λ d, matches q d = false) l) = [].
Proof.
  induction l as [|d l IH]; [done|].
  rewrite filter_cons. destruct (matches q d) eqn:E.
  - now rewrite decide_False by done.
  - rewrite decide_True by done. rewrite filter_cons.
    now rewrite decide_False by (rewrite E; done).
Qed.

Lemma lookup_sweep_state uri db cutoff names s uri' db' coll' :
  database_at (servers (sweep_state uri db cutoff names s)) uri' db' !! coll' =
  if decide (uri = uri' ∧ db = db' ∧ coll' ∈ names)
  then Driver.remove_docs (QLt "timestamp" cutoff) <$> database_at (servers s) uri' db' !! coll'
  else database_at (servers s) uri' db' !! coll'.
Proof.
  revert s. induction names as [|coll names IH]; intros s.
  - simpl. rewrite decide_False; [done|]. intros (_ & _ & H). inversion H.
  - unfold sweep_state in *. simpl. rewrite IH. clear IH.
    unfold sweep_collection_state. cbn [servers].
    rewrite database_at_update.
    destruct (decide (uri = uri' ∧ db = db')) as [[-> ->]|Hne].
    + rewrite lookup_alter.
      destruct (decide (coll = coll')) as [->|Hc].
      * rewrite (decide_True (P := _ ∧ _ ∧ coll' ∈ coll' :: names))
          by (repeat split; auto; left).
        destruct (decide _); [|done].
        destruct (database_at (servers s) uri' db' !! coll') as [k|]; simpl; [|done].
        now rewrite remove_docs_idemp.
      * destruct (decide (uri' = uri' ∧ db' = db' ∧ coll' ∈ names)) as [(_ & _ & Hin)|Hn].
        -- rewrite decide_True; [done|]. repeat split; auto. now right.
        -- rewrite decide_False; [done|]. intros (_ & _ & Hin). apply Hn.
           repeat split; auto. inversion Hin; subst; [done|auto].
    + rewrite !decide_False; [done| |]; intros (? & ? & _); auto.
Qed.

Lemma ismaster_sweep_state uri db cutoff names s uri' :
  ismaster <$> servers (sweep_state uri db cutoff names s) !! uri' =
  ismaster <$> servers s !! uri'.
Proof.
  revert s. induction names as [|coll names IH]; intros s; [done|].
  unfold sweep_state in *. simpl. rewrite IH. simpl. apply ismaster_update.
Qed.

Lemma today_sweep_state uri db cutoff names s :
  today (sweep_state uri db cutoff names s) = today s.
Proof.
  revert s. induction names as [|coll names IH]; intros s; [done|].
  unfold sweep_state in *. simpl. now rewrite IH.
Qed.

(** ** The calls recorded in the trace *)

Lemma connects_app tr1 tr2 : connects (tr1 ++ tr2) = connects tr1 ++ connects tr2.
Proof. apply omap_app. Qed.

Lemma removals_app tr1 tr2 : removals (tr1 ++ tr2) = removals tr1 ++ removals tr2.
Proof. apply omap_app. Qed.

Lemma reindexes_app tr1 tr2 : reindexes (tr1 ++ tr2) = reindexes tr1 ++ reindexes tr2.
Proof. apply omap_app. Qed.

Lemma connects_connect_events self host s :
  connects (connect_events self host s) = [uri_of self host].
Proof.
  unfold connect_events. now destruct (__conn s), (servers s !! uri_of self host).
Qed.

Lemma removals_connect_events self host s :
  removals (connect_events self host s) = [].
Proof.
  unfold connect_events. now destruct (__conn s), (servers s !! uri_of self host).
Qed.

Lemma reindexes_connect_events self host s :
  reindexes (connect_events self host s) = [].
Proof.
  unfold connect_events. now destruct (__conn s), (servers s !! uri_of self host).
Qed.

Lemma connects_find_primary_state self hosts s :
  connects (trace (find_primary_state self hosts s)) =
  connects (trace s) ++ (uri_of self <$> probed self (servers s) hosts).
Proof.
  revert s. induction hosts as [|host hosts IH]; intros s; simpl.
  - rewrite connects_app. simpl. now rewrite app_nil_r.
  - destruct (reports self (servers s) host) as [[|]|]; simpl;
      rewrite ?connects_app, ?IH, ?servers_connected, trace_connected, connects_app,
        connects_connect_events; simpl; rewrite <- ?app_assoc; try done.
Qed.

Lemma removals_find_primary_state self hosts s :
  removals (trace (find_primary_state self hosts s)) = removals (trace s).
Proof.
  revert s. induction hosts as [|host hosts IH]; intros s; simpl.
  - rewrite removals_app. simpl. now rewrite app_nil_r.
  - destruct (reports self (servers s) host) as [[|]|]; simpl;
      rewrite ?removals_app, ?IH, trace_connected, removals_app,
        removals_connect_events; simpl; now rewrite ?app_nil_r.
Qed.

Lemma connects_sweep_state uri db cutoff names s :
  connects (trace (sweep_state uri db cutoff names s)) = connects (trace s).
Proof.
  revert s. induction names as [|coll names IH]; intros s; [done|].
  unfold sweep_state in *. simpl. rewrite IH. simpl.
  rewrite connects_app. simpl. now rewrite app_nil_r.
Qed.

Lemma probed_prefix self srv hosts :
  probed self srv hosts `prefix_of` upto_first_primary self srv hosts.
Proof.
  induction hosts as [|host hosts IH]; simpl; [done|].
  apply prefix_cons. destruct (reports self srv host) as [[|]|]; [done|done|].
  apply prefix_nil.
Qed.

Lemma probed_all_reachable self srv hosts :
  Forall (λ h, is_Some (srv !! uri_of self h)) (upto_first_primary self srv hosts) ->
  probed self srv hosts = upto_first_primary self srv hosts.
Proof.
  induction hosts as [|host hosts IH]; simpl; [done|].
  intros H. apply Forall_cons in H as [Hh H]. f_equal.
  unfold reports in *. destruct Hh as [sv Hsv]. rewrite Hsv in *. simpl in *.
  destruct (ismaster sv); [done|]. now apply IH.
Qed.

Lemma string_length_app (a b : string) :
  String.length (a +:+ b) = (String.length a + String.length b)%nat.
Proof. induction a as [|c a IH]; simpl; [done|]. now rewrite IH. Qed.

Lemma upto_first_primary_split self srv before p after :
  Forall (λ h, reports self srv h = Some false) before ->
  reports self srv p = Some true ->
  upto_first_primary self srv (before ++ p :: after) = before ++ [p].
Proof.
  intros Hb Hp. induction Hb as [|h before Hh Hb IH]; simpl.
  - now rewrite Hp.
  - now rewrite Hh, IH.
Qed.

Lemma trace_cut_old_data_connects self retention s :
  connects (trace (cut_old_data self retention s).2) =
  connects (trace s) ++
  (uri_of self <$> probed self (servers s) (mongodb_host_with_port self)).
Proof.
  rewrite cut_old_data_run. unfold cut_old_data_outcome.
  destruct (discover _ _ _) as [p|e]; simpl;
    [destruct (cut_off_date _ _) as [d|e]; simpl|];
    rewrite ?connects_sweep_state; simpl; rewrite ?connects_app; simpl;
    rewrite ?app_nil_r; apply connects_find_primary_state.
Qed.

(** The [MongoClient] calls that [cut_old_data] adds to the trace are
    those for an initial segment of the hosts up to and including the
    first primary, the whole of that segment when its hosts can be
    reached; so for a list [before ++ p :: after] in which [p] is the
    first primary and the hosts before it answer as secondary, the calls
    are for [before], then for [p], and none is for a host of [after]. *)
Lemma connects_in_order_until_first_primary self retention s :
  let hosts := mongodb_host_with_port self in
  let tr' := trace (cut_old_data self retention s).2 in
  (∃ called,
      connects tr' = connects (trace s) ++ (uri_of self <$> called) ∧
      called `prefix_of` upto_first_primary self (servers s) hosts ∧
      (Forall (reachable self s) (upto_first_primary self (servers s) hosts) ->
       called = upto_first_primary self (servers s) hosts)) ∧
  (∀ before p after,
      hosts = before ++ p :: after ->
      Forall (λ h, reports self (servers s) h = Some false) before ->
      reports self (servers s) p = Some true ->
      connects tr' = connects (trace s) ++ (uri_of self <$> before ++ [p])).
Proof.
  intros hosts tr'. unfold tr'. rewrite trace_cut_old_data_connects. fold hosts.
  split.
  - exists (probed self (servers s) hosts). split; [done|]. split.
    + apply probed_prefix.
    + apply probed_all_reachable.
  - intros before p after Hh Hb Hp. do 2 f_equal.
    rewrite probed_all_reachable.
    + rewrite Hh. now apply upto_first_primary_split.
    + rewrite Hh, upto_first_primary_split by done.
      apply Forall_app. split.
      * eapply Forall_impl; [exact Hb|]. intros h Hr. unfold reports in Hr.
        now destruct (servers s !! uri_of self h).
      * constructor; [|constructor]. unfold reports in Hp.
        now destruct (servers s !! uri_of self p).
Qed.

(** On the sample deployment [A; B; C] with primary B the sweep connects
    to A, then to B, and not to C. *)
Example connects_in_order_on_sample :
  connects (trace (cut_old_data Sample.self 1 Sample.start).2) =
  ["mongodb://A"; "mongodb://B"].
Proof.
  apply (proj2 (connects_in_order_until_first_primary Sample.self 1 Sample.start)
           ["A"] "B" ["C"]).
  - reflexivity.
  - repeat constructor.
  - reflexivity.
Qed.

(** C2, at the failing input: with the hosts [A; B; C], A down and B the
    first host that answers as primary, the hosts up to the first primary
    are A and B, but [cut_old_data] calls [MongoClient] for A only: after
    the refused connection it asks the missing connection for its role
    and ends with that [TypeError], so B is never connected to. *)
Theorem C2_host_down_before_primary_stops_the_search :
  let hosts := mongodb_host_with_port Sample.self in
  let r := cut_old_data Sample.self 1 Sample.start_A_down in
  hosts = ["A"; "B"; "C"] ∧
  ¬ reachable Sample.self Sample.start_A_down "A" ∧
  reports Sample.self (servers Sample.start_A_down) "B" = Some true ∧
  upto_first_primary Sample.self (servers Sample.start_A_down) hosts = ["A"; "B"] ∧
  r.1 = Raise TypeError ∧
  connects (trace r.2) = ["mongodb://A"] ∧
  connects (trace r.2) ≠
    uri_of Sample.self <$> upto_first_primary Sample.self (servers Sample.start_A_down) hosts.
Proof.
  cbv zeta. split; [reflexivity|]. split.
  { intros [sv Hsv]. vm_compute in Hsv. discriminate Hsv. }
  split; [reflexivity|]. split; [reflexivity|]. split; [vm_compute; reflexivity|].
  assert (Hc : connects (trace (cut_old_data Sample.self 1 Sample.start_A_down).2)
               = ["mongodb://A"]) by (vm_compute; reflexivity).
  split; [exact Hc|]. rewrite Hc. intros H. vm_compute in H. discriminate H.
Qed.

(** ** No primary *)

Lemma discover_no_primary self srv hosts :
  Forall (λ h, reports self srv h ≠ Some true) hosts ->
  (discover self srv hosts = Raise (SystemExit 1) ∨
   discover self srv hosts = Raise TypeError) ∧
  (Forall (λ h, is_Some (srv !! uri_of self h)) hosts ->
   discover self srv hosts = Raise (SystemExit 1)).
Proof.
  induction 1 as [|h hosts Hh H IH]; simpl; [auto|].
  destruct (reports self srv h) as [[|]|] eqn:E; [done| |].
  - split; [apply IH|]. intros Hr. apply Forall_cons in Hr as [_ Hr]. now apply IH.
  - split; [auto|]. intros Hr. apply Forall_cons in Hr as [[sv Hsv] _].
    unfold reports in E. now rewrite Hsv in E.
Qed.

Lemma main_retention_raise a n s e s' :
  retention a = Some n -> n ≠ 0 ->
  cut_old_data (MongoDB_init a) n s = (Raise e, s') ->
  main a s = (Raise e, s').
Proof.
  intros Hr Hn Hc. unfold main. rewrite Hr. simpl.
  rewrite (proj2 (Z.eqb_neq n 0) Hn). simpl.
  now apply run_bind_raise.
Qed.

(** C5: when no host of the list answers as primary, [cut_old_data]
    raises: [SystemExit 1] after the "primary not found" error, or the
    [TypeError] of an unreachable host.  Either way the script started with
    this retention ends there with a non-zero exit status, no [remove] has
    been issued, and every deployment is as it was. *)
Theorem C5_no_primary_exits_without_deleting a n s
    (Hret : retention a = Some n) (Hn : n ≠ 0)
    (Hnone : Forall (λ h, reports (MongoDB_init a) (servers s) h ≠ Some true) (server_ a)) :
  ∃ e s',
    cut_old_data (MongoDB_init a) n s = (Raise e, s') ∧
    main a s = (Raise e, s') ∧
    (e = SystemExit 1 ∨ e = TypeError) ∧
    exit_status (Raise e : result unit) = 1 ∧
    servers s' = servers s ∧
    removals (trace s') = removals (trace s) ∧
    (Forall (reachable (MongoDB_init a) s) (server_ a) -> e = SystemExit 1).
Proof.
  set (self := MongoDB_init a) in *.
  destruct (discover_no_primary self (servers s) (server_ a) Hnone) as [Hd Hall].
  pose proof (cut_old_data_run self n s) as Hrun.
  unfold cut_old_data_outcome in Hrun. simpl in Hrun, Hd, Hall.
  set (s1 := find_primary_state self (server_ a) s) in *.
  assert (He : ∃ e, discover self (servers s) (server_ a) = Raise e ∧
                    (e = SystemExit 1 ∨ e = TypeError)).
  { destruct Hd as [Hd|Hd]; rewrite Hd; eauto. }
  destruct He as (e & Hde & He). rewrite Hde in Hrun.
  exists e, s1. split; [done|]. split.
  { now apply main_retention_raise with n. }
  split; [done|]. split.
  { now destruct He as [-> | ->]. }
  split; [apply servers_find_primary_state|].
  split; [apply removals_find_primary_state|].
  intros Hr. specialize (Hall Hr). congruence.
Qed.

Lemma C5_witness :
  ∃ e s',
    cut_old_data Sample.self 1 Sample.start_no_primary = (Raise e, s') ∧
    exit_status (Raise e : result unit) = 1 ∧
    servers s' = servers Sample.start_no_primary ∧
    removals (trace s') = [].
Proof.
  destruct (C5_no_primary_exits_without_deleting
              (Args "prod" ["A"; "B"; "C"] None None (Some 1) false) 1
              Sample.start_no_primary)
    as (e & s' & H1 & _ & _ & H2 & H3 & H4 & _).
  - reflexivity.
  - lia.
  - repeat constructor; discriminate.
  - exists e, s'. repeat split; assumption.
Defined.

(** ** A host that cannot be reached *)

Lemma probe_unreachable self host s :
  ¬ reachable self s host ->
  connect self host s = (Ok (), refused (uri_of self host) (closed s)) ∧
  is_master (refused (uri_of self host) (closed s)) =
    (Raise TypeError, refused (uri_of self host) (closed s)).
Proof.
  intros Hn. rewrite connect_run.
  assert (E : servers s !! uri_of self host = None).
  { destruct (servers s !! uri_of self host) eqn:E; [|done].
    exfalso. apply Hn. unfold reachable. rewrite E. eauto. }
  pose proof (is_master_connected self host s) as Hm.
  unfold connected, reports in *. rewrite E in *. now split.
Qed.

(** C4, at the failing input: with host A down and B the primary,
    [connect] on A logs the error and returns, but the sweep then asks
    the missing connection for its role, which is a [TypeError]; no
    connection to B is ever attempted, and the rebuild sweep ends the
    same way. *)
Theorem C4_unreachable_host_aborts_sweep :
  let s1 := (connect Sample.self "A" Sample.start_A_down).2 in
  let s2 := (cut_old_data Sample.self 1 Sample.start_A_down).2 in
  (connect Sample.self "A" Sample.start_A_down).1 = Ok () ∧
  trace s1 = [EMongoClient "mongodb://A"; ELog ERROR MsgConnectionError] ∧
  __conn s1 = None ∧
  (cut_old_data Sample.self 1 Sample.start_A_down).1 = Raise TypeError ∧
  connects (trace s2) = ["mongodb://A"] ∧
  (rebuild_indexes Sample.self Sample.start_A_down).1 = Raise TypeError.
Proof. vm_compute. repeat split. Qed.

(** ** Credentials *)

Lemma authenticated_uri_differs user pw host :
  "mongodb://" +:+ user +:+ ":" +:+ pw +:+ "@" +:+ host ≠ "mongodb://" +:+ host.
Proof.
  intros H. apply (f_equal String.length) in H.
  rewrite !string_length_app in H. simpl in H. lia.
Qed.

(** C10: with a user name and no password, [connect] does not use the
    unauthenticated URI: its one [MongoClient] call gets the URI formatted
    from the user name and the literal [None] as password. *)
Theorem C10_missing_password_is_formatted_as_None self host s user
    (Huser : mongodb_user self = Some user)
    (Hpw : mongodb_password self = None) :
  let uri := "mongodb://" +:+ user +:+ ":" +:+ "None" +:+ "@" +:+ host in
  ∃ s', connect self host s = (Ok (), s') ∧
        connects (trace s') = connects (trace s) ++ [uri] ∧
        uri ≠ "mongodb://" +:+ host ∧
        (∀ sv, servers s !! uri = Some sv ->
               __conn s' = Some (Client (next_id s) uri)).
Proof.
  intros uri. exists (connected self host s).
  assert (Hu : uri_of self host = uri).
  { unfold uri_of. now rewrite Huser, Hpw. }
  split; [apply connect_run|]. split.
  { now rewrite trace_connected, connects_app, connects_connect_events, Hu. }
  split; [apply authenticated_uri_differs|].
  intros sv Hsv. rewrite conn_connected, Hu. now rewrite Hsv.
Qed.

Lemma C10_witness :
  ∃ s', connect Sample.self_user "A" Sample.start = (Ok (), s') ∧
        connects (trace s') = ["mongodb://ops:None@A"].
Proof.
  destruct (C10_missing_password_is_formatted_as_None
              Sample.self_user "A" Sample.start "ops" eq_refl eq_refl)
    as (s' & H1 & H2 & _).
  exists s'. split; [exact H1|exact H2].
Defined.

(** ** The connection state machine *)

(** C8: every operation keeps the open connections equal to the one held
    in [__conn], so at most one is open.  [connect] to [Y] after [connect]
    to [X] first closes the client of [X] and then builds the client of
    [Y], which, when [Y] can be reached, is then the only open one; and
    [close] without a connection, in particular after a [close], returns
    and changes nothing. *)
Theorem C8_at_most_one_open_connection self a retention X Y s
    (Hinv : single_connection s) :
  (length (open_clients s) <= 1)%nat ∧
  single_connection (connect self X s).2 ∧
  single_connection (close s).2 ∧
  single_connection (is_master s).2 ∧
  single_connection (cut_old_data self retention s).2 ∧
  single_connection (rebuild_indexes self s).2 ∧
  single_connection (main a s).2 ∧
  (let sX := (connect self X s).2 in
   let sY := (connect self Y sX).2 in
   (connect self X ≫= λ _, connect self Y) s = (Ok (), sY) ∧
   (∀ cX, __conn sX = Some cX ->
      ∃ rest, trace sY = trace sX ++ EClose cX :: EMongoClient (uri_of self Y) :: rest) ∧
   (reachable self s Y ->
      ∃ cY, client_uri cY = uri_of self Y ∧
            __conn sY = Some cY ∧ open_clients sY = [cY])) ∧
  (__conn s = None -> close s = (Ok (), s)) ∧
  (close ≫= λ _, close) s = close s.
Proof.
  split; [now apply single_connection_at_most_one|].
  split; [now apply preserves_connect|].
  split; [now apply preserves_close|].
  split; [now apply (preserves_is_master single_connection)|].
  split; [now apply preserves_cut_old_data|].
  split; [now apply preserves_rebuild_indexes|].
  split; [now apply preserves_main|].
  split; [|split].
  - cbv zeta. rewrite (connect_run self X s). cbn [snd].
    rewrite (connect_run self Y (connected self X s)). cbn [snd].
    split; [|split].
    + now rewrite (run_bind _ _ _ _ _ (connect_run self X s)), connect_run.
    + intros cX HcX. rewrite trace_connected. unfold connect_events.
      rewrite HcX. simpl. eauto.
    + intros [sv Hsv].
      assert (HX : single_connection (connected self X s))
        by now apply single_connection_connected.
      pose proof (single_connection_connected self Y _ HX) as HY.
      pose proof (conn_connected self Y (connected self X s)) as Hc.
      rewrite servers_connected, Hsv in Hc.
      eexists. split; [|split; [exact Hc|]]; [done|].
      unfold single_connection in HY. now rewrite HY, Hc.
  - intros Hc. rewrite close_run. unfold closed. now rewrite Hc.
  - rewrite (run_bind _ _ _ _ _ (close_run s)), !close_run.
    unfold closed at 1. now rewrite conn_closed.
Qed.

Lemma C8_witness :
  let sX := (connect Sample.self "A" Sample.start).2 in
  let sY := (connect Sample.self "B" sX).2 in
  open_clients sY = [Client 1 "mongodb://B"] ∧
  trace sY = trace sX ++ [EClose (Client 0 "mongodb://A"); EMongoClient "mongodb://B"] ∧
  close Sample.start = (Ok (), Sample.start).
Proof.
  pose proof (C8_at_most_one_open_connection Sample.self
                (Args "prod" ["A"; "B"; "C"] None None (Some 1) false) 1
                "A" "B" Sample.start eq_refl) as H.
  destruct H as (_ & _ & _ & _ & _ & _ & _ & _ & H & _).
  split; [|split].
  - vm_compute. reflexivity.
  - vm_compute. reflexivity.
  - apply H. reflexivity.
Defined.

(** ** The retention sweep on the primary *)

Lemma elem_of_swept_names srv uri db coll :
  coll ∈ swept_names srv uri db ↔
  String.prefix "system." coll = false ∧ is_Some (database_at srv uri db !! coll).
Proof.
  unfold swept_names. rewrite list_elem_of_filter, list_elem_of_fmap.
  split.
  - intros [Hp ([c k] & -> & Hin)]. split; [done|].
    apply elem_of_map_to_list in Hin. simpl. eauto.
  - intros [Hp [k Hk]]. split; [done|]. exists (coll, k). split; [done|].
    now apply elem_of_map_to_list.
Qed.

Lemma remove_docs_swept C k :
  collection_swept C k (Driver.remove_docs (QLt "timestamp" C) k).
Proof.
  unfold collection_swept, Driver.remove_docs. simpl.
  split; [|split; [|split]].
  - intros doc t Ht Hlt Hin. apply list_elem_of_filter in Hin as [Hm _].
    rewrite Ht in Hm. apply Z.ltb_ge in Hm. lia.
  - intros doc t Hin Ht Hle. apply list_elem_of_filter. split; [|done].
    rewrite Ht. apply Z.ltb_ge. lia.
  - intros doc Hin Ht. apply list_elem_of_filter. split; [|done]. now rewrite Ht.
  - pose proof (filter_matches_length (QLt "timestamp" C) (docs k)). simpl in *. lia.
Qed.

Lemma trace_sweep_state_prefix uri db cutoff names s :
  trace s `prefix_of` trace (sweep_state uri db cutoff names s).
Proof.
  revert s. induction names as [|coll names IH]; intros s; [done|].
  unfold sweep_state in *. simpl. etrans; [|apply IH]. simpl.
  now apply prefix_app_r.
Qed.

Lemma sweep_events_in_trace uri db cutoff names s coll :
  NoDup names -> coll ∈ names ->
  ∀ e, e ∈ sweep_events uri db coll (QLt "timestamp" cutoff)
             (collection_at (servers s) uri db coll) ->
       e ∈ trace (sweep_state uri db cutoff names s).
Proof.
  intros Hnd. revert s. induction Hnd as [|c names Hc Hnd IH]; intros s Hin e He.
  { inversion Hin. }
  unfold sweep_state in *. simpl.
  apply elem_of_cons in Hin as [->|Hin].
  - eapply elem_of_prefix; [|apply trace_sweep_state_prefix].
    simpl. apply elem_of_app. now right.
  - apply IH; [done|]. simpl. rewrite collection_at_update.
    rewrite decide_False; [done|]. intros (_ & _ & ->). done.
Qed.

Lemma servers_emit e s : servers (emit e s) = servers s.
Proof. reflexivity. Qed.

(** C1, as amended: when the primary is found and the cutoff is
    computed, [cut_old_data] returns, and on the primary every collection
    of the target database whose name does not start with [system.] holds
    exactly its former documents that do not match [timestamp < C]: aged
    documents are gone, documents at or after the cutoff and documents
    without a timestamp remain, the count left is the count before less
    the count matched, and these are the counts the sweep logs.  The
    collections whose name starts with [system.] are not enumerated and
    keep all their documents. *)
Theorem C1_sweep_of_enumerated_collections self retention s before p after d
    (Hhosts : mongodb_host_with_port self = before ++ p :: after)
    (Hbefore : Forall (λ h, reports self (servers s) h = Some false) before)
    (Hp : reports self (servers s) p = Some true)
    (Hd : cut_off_date (today s) retention = Ok d) :
  let C := cut_off_timestamp d in
  let q := QLt "timestamp" C in
  let db := database_at (servers s) (uri_of self p) (mongodb_db self) in
  ∃ s', cut_old_data self retention s = (Ok (), s') ∧
    let db' := database_at (servers s') (uri_of self p) (mongodb_db self) in
    ∀ coll k, db !! coll = Some k ->
      if String.prefix "system." coll
      then db' !! coll = Some k
      else
        let to_cut := length (filter (λ doc, matches q doc = true) (docs k)) in
        ∃ k', db' !! coll = Some k' ∧
              docs k' = filter (λ doc, matches q doc = false) (docs k) ∧
              collection_swept C k k' ∧
              ELog INFO (MsgTotalToRemove (length (docs k)) to_cut) ∈ trace s' ∧
              ELog INFO (MsgRemovedLeft to_cut (length (docs k'))) ∈ trace s'.
Proof.
  intros C q db. rewrite cut_old_data_run. unfold cut_old_data_outcome.
  rewrite Hhosts, (discover_Ok self (servers s) before p after Hbefore Hp), Hd.
  eexists. split; [reflexivity|]. cbv zeta. intros coll k Hk.
  rewrite lookup_sweep_state. rewrite servers_emit, servers_find_primary_state.
  fold db. rewrite Hk.
  destruct (String.prefix "system." coll) eqn:Hsys.
  - rewrite decide_False; [done|]. intros (_ & _ & Hin).
    apply elem_of_swept_names in Hin as [Hin _]. congruence.
  - assert (Hin : coll ∈ swept_names (servers s) (uri_of self p) (mongodb_db self)).
    { apply elem_of_swept_names. split; [done|]. fold db. rewrite Hk. eauto. }
    rewrite decide_True by done. simpl.
    exists (Driver.remove_docs q k). split; [done|]. split; [done|].
    split; [apply remove_docs_swept|].
    set (s1 := emit _ (find_primary_state _ _ _)).
    assert (Hk1 : collection_at (servers s1) (uri_of self p) (mongodb_db self) coll = k).
    { unfold collection_at, s1. rewrite servers_emit, servers_find_primary_state.
      fold db. now rewrite Hk. }
    pose proof (sweep_events_in_trace (uri_of self p) (mongodb_db self) C _ s1 coll
                  (NoDup_filter _ _ (NoDup_fst_map_to_list _)) Hin) as Hev.
    rewrite Hk1 in Hev. fold q in Hev.
    split; apply Hev; unfold sweep_events; set_solver.
Qed.

(** On the sample deployment the sweep of 31 March 2018 with one month of
    retention leaves in [events] the recent document and the document
    without a timestamp. *)
Lemma C1_witness :
  ∃ s' k',
    cut_old_data Sample.self 1 Sample.start = (Ok (), s') ∧
    database_at (servers s') "mongodb://B" "prod" !! "events" = Some k' ∧
    docs k' = [Sample.doc 2000000000000; {[ "x" := VInt 1 ]}].
Proof.
  destruct (C1_sweep_of_enumerated_collections Sample.self 1 Sample.start
              ["A"] "B" ["C"] (PyDate.Date 2018 2 28)) as (s' & Hrun & H).
  - reflexivity.
  - repeat constructor.
  - reflexivity.
  - reflexivity.
  - specialize (H "events"
                  (Collection [Sample.doc 5; Sample.doc 2000000000000; {[ "x" := VInt 1 ]}]
                              ["_id_"]) eq_refl).
    destruct H as (k' & Hk' & Hdocs & _).
    exists s', k'. split; [exact Hrun|]. split; [exact Hk'|].
    rewrite Hdocs. vm_compute. reflexivity.
Defined.

(** C1 as stated fails on the sample deployment: the collection
    [system.js] of the target database holds a document with timestamp 5,
    far before the cutoff, and still holds it after the sweep. *)
Lemma C1_counterexample :
  let r := cut_old_data Sample.self 1 Sample.start in
  r.1 = Ok () ∧
  ¬ every_collection_swept
      (cut_off_timestamp (PyDate.Date 2018 2 28))
      (database_at (servers Sample.start) "mongodb://B" "prod")
      (database_at (servers r.2) "mongodb://B" "prod").
Proof.
  split; [vm_compute; reflexivity|].
  intros H.
  destruct (H "system.js" (Collection [Sample.doc 5] ["_id_"]) eq_refl)
    as (k' & Hk' & Habsent & _).
  assert (Hlook : database_at (servers (cut_old_data Sample.self 1 Sample.start).2)
                    "mongodb://B" "prod" !! "system.js"
                  = Some (Collection [Sample.doc 5] ["_id_"]))
    by (vm_compute; reflexivity).
  rewrite Hlook in Hk'. injection Hk' as <-.
  apply (Habsent (Sample.doc 5) 5).
  - reflexivity.
  - vm_compute. reflexivity.
  - simpl. apply list_elem_of_here.
Qed.

(** ** Running the sweep again *)

Lemma trace_connected_nothing_to_remove self host s :
  ∃ evs, trace (connected self host s) = trace s ++ evs ∧ Forall nothing_to_remove evs.
Proof.
  exists (connect_events self host s). split; [apply trace_connected|].
  unfold connect_events.
  destruct (__conn s), (servers s !! uri_of self host); repeat constructor.
Qed.

Lemma trace_find_primary_state self hosts s :
  ∃ evs, trace (find_primary_state self hosts s) = trace s ++ evs ∧
         Forall nothing_to_remove evs.
Proof.
  revert s. induction hosts as [|host hosts IH]; intros s; simpl.
  - eexists. split; [reflexivity|]. repeat constructor.
  - destruct (trace_connected_nothing_to_remove self host s) as (evs & He & Hf).
    destruct (reports self (servers s) host) as [[|]|]; simpl.
    + exists (evs ++ [ELog INFO (MsgConnectedPrimary host (mongodb_user self))]).
      rewrite He, <- app_assoc. split; [done|].
      apply Forall_app. split; [done|]. repeat constructor.
    + destruct (IH (connected self host s)) as (evs' & He' & Hf').
      exists (evs ++ evs'). rewrite He', He, <- app_assoc. split; [done|].
      now apply Forall_app.
    + now exists evs.
Qed.

Lemma reports_sweep_state self uri db cutoff names s h :
  reports self (servers (sweep_state uri db cutoff names s)) h =
  reports self (servers s) h.
Proof. unfold reports. apply ismaster_sweep_state. Qed.

Lemma discover_ext self srv srv' hosts :
  (∀ h, reports self srv h = reports self srv' h) ->
  discover self srv hosts = discover self srv' hosts.
Proof.
  intros H. induction hosts as [|host hosts IH]; simpl; [done|].
  now rewrite H, IH.
Qed.

Lemma filter_not_matches_id q (l : list document) :
  filter (λ d, matches q d = true) l = [] ->
  filter (λ d, matches q d = false) l = l.
Proof.
  induction l as [|d l IH]; [done|].
  rewrite !filter_cons. destruct (matches q d) eqn:E.
  - rewrite decide_True by done. discriminate.
  - rewrite decide_False by done. rewrite decide_True by done.
    intros H. now rewrite IH.
Qed.

(** A collection in which the query matches nothing. *)
Lemma update_collection_clean q uri db coll srv :
  (∀ k, database_at srv uri db !! coll = Some k ->
        filter (λ d, matches q d = true) (docs k) = []) ->
  Driver.update_collection (Driver.remove_docs q) uri db coll srv = srv.
Proof.
  intros H. unfold Driver.update_collection.
  apply alter_id. intros sv Hsv. destruct sv as [m ds]. simpl. f_equal.
  apply alter_id. intros d Hd. apply alter_id. intros k Hk.
  unfold Driver.remove_docs. destruct k as [l ix]. simpl. f_equal.
  apply filter_not_matches_id.
  apply (H (Collection l ix)). unfold database_at. rewrite Hsv. simpl.
  now rewrite Hd.
Qed.

Lemma sweep_state_clean uri db cutoff names s :
  (∀ coll k, coll ∈ names -> database_at (servers s) uri db !! coll = Some k ->
             filter (λ d, matches (QLt "timestamp" cutoff) d = true) (docs k) = []) ->
  servers (sweep_state uri db cutoff names s) = servers s ∧
  ∃ evs, trace (sweep_state uri db cutoff names s) = trace s ++ evs ∧
         Forall nothing_to_remove evs.
Proof.
  revert s. induction names as [|coll names IH]; intros s H.
  - split; [done|]. exists []. now rewrite app_nil_r.
  - unfold sweep_state in *. simpl.
    assert (Hc : ∀ k, database_at (servers s) uri db !! coll = Some k ->
                      filter (λ d, matches (QLt "timestamp" cutoff) d = true) (docs k) = []).
    { intros k. apply H. left. }
    assert (Hsv : servers (sweep_collection_state uri db cutoff coll s) = servers s).
    { simpl. now apply update_collection_clean. }
    destruct (IH (sweep_collection_state uri db cutoff coll s)) as (Hs & evs & He & Hf).
    { intros c k Hin. rewrite Hsv. apply H. now right. }
    split; [now rewrite Hs|].
    eexists. rewrite He. simpl. rewrite <- app_assoc. split; [reflexivity|].
    apply Forall_app. split; [|done].
    assert (H0 : length (filter (λ d, matches (QLt "timestamp" cutoff) d = true)
                           (docs (collection_at (servers s) uri db coll))) = 0%nat).
    { unfold collection_at.
      destruct (database_at (servers s) uri db !! coll) as [k|] eqn:E; [|done].
      change (default (Collection [] []) (Some k)) with k. now rewrite (Hc k). }
    unfold sweep_events. rewrite H0. repeat constructor.
Qed.

Lemma cut_old_data_outcome_frame self retention s :
  (∀ h, reports self (servers (cut_old_data_outcome self retention s).2) h =
        reports self (servers s) h) ∧
  today (cut_old_data_outcome self retention s).2 = today s.
Proof.
  unfold cut_old_data_outcome.
  destruct (discover _ _ _) as [p|e]; [destruct (cut_off_date _ _) as [d|e]|]; simpl.
  - split.
    + intros h. now rewrite reports_sweep_state, servers_emit, servers_find_primary_state.
    + rewrite today_sweep_state. simpl. apply today_find_primary_state.
  - split; [intros h; now rewrite servers_find_primary_state|].
    apply today_find_primary_state.
  - split; [intros h; now rewrite servers_find_primary_state|].
    apply today_find_primary_state.
Qed.

Lemma swept_is_clean uri db cutoff s coll k :
  let s1 := sweep_state uri db cutoff (swept_names (servers s) uri db) s in
  coll ∈ swept_names (servers s1) uri db ->
  database_at (servers s1) uri db !! coll = Some k ->
  filter (λ d, matches (QLt "timestamp" cutoff) d = true) (docs k) = [].
Proof.
  intros s1 Hin Hk. apply elem_of_swept_names in Hin as [Hsys _].
  unfold s1 in Hk. rewrite lookup_sweep_state in Hk.
  assert (Hin0 : coll ∈ swept_names (servers s) uri db).
  { apply elem_of_swept_names. split; [done|].
    destruct (decide _) in Hk.
    - destruct (database_at (servers s) uri db !! coll); [eauto|done].
    - rewrite Hk. eauto. }
  rewrite decide_True in Hk by done.
  destruct (database_at (servers s) uri db !! coll) as [k0|]; [|done].
  injection Hk as <-. apply filter_matches_clean.
Qed.

(** C6: a second [cut_old_data] with the same retention, on the state
    the first one left and with the clock unchanged, ends as the first
    did, leaves every deployment as the first left it, and logs zero
    documents to remove for every collection it visits. *)
Theorem C6_second_sweep_removes_nothing self retention s :
  let r1 := cut_old_data self retention s in
  let r2 := cut_old_data self retention r1.2 in
  r2.1 = r1.1 ∧
  servers r2.2 = servers r1.2 ∧
  ∃ evs, trace r2.2 = trace r1.2 ++ evs ∧ Forall nothing_to_remove evs.
Proof.
  cbv zeta. rewrite !cut_old_data_run.
  destruct (cut_old_data_outcome_frame self retention s) as [Hrep Htoday].
  set (s1 := (cut_old_data_outcome self retention s).2) in *.
  assert (Hs1 : ∀ p d,
            discover self (servers s) (mongodb_host_with_port self) = Ok p ->
            cut_off_date (today s) retention = Ok d ->
            s1 = sweep_state (uri_of self p) (mongodb_db self) (cut_off_timestamp d)
                   (swept_names
                      (servers (emit (ELog INFO (MsgRetention retention d))
                                  (find_primary_state self (mongodb_host_with_port self) s)))
                      (uri_of self p) (mongodb_db self))
                   (emit (ELog INFO (MsgRetention retention d))
                      (find_primary_state self (mongodb_host_with_port self) s))).
  { intros p d Hp Hd. unfold s1, cut_old_data_outcome. rewrite Hp, Hd. simpl.
    now rewrite servers_find_primary_state. }
  destruct (trace_find_primary_state self (mongodb_host_with_port self) s1)
    as (evf & Hevf & Hff).
  pose proof (servers_find_primary_state self (mongodb_host_with_port self) s1) as Hsf.
  assert (Hfst : (cut_old_data_outcome self retention s).1 =
                 match discover self (servers s) (mongodb_host_with_port self) with
                 | Ok _ => match cut_off_date (today s) retention with
                           | Ok _ => Ok ()
                           | Raise e => Raise e
                           end
                 | Raise e => Raise e
                 end).
  { unfold cut_old_data_outcome.
    destruct (discover _ _ _); [destruct (cut_off_date _ _)|]; reflexivity. }
  rewrite Hfst. unfold cut_old_data_outcome.
  rewrite (discover_ext self (servers s1) (servers s) _ Hrep), Htoday.
  destruct (discover self (servers s) (mongodb_host_with_port self)) as [p|e] eqn:Hp;
    [destruct (cut_off_date (today s) retention) as [d|e] eqn:Hd|]; simpl.
  - split; [done|].
    set (s2 := emit (ELog INFO (MsgRetention retention d))
                 (find_primary_state self (mongodb_host_with_port self) s1)).
    assert (Hs2 : servers s2 = servers s1) by (unfold s2; now rewrite servers_emit).
    destruct (sweep_state_clean (uri_of self p) (mongodb_db self) (cut_off_timestamp d)
                (swept_names (servers s1) (uri_of self p) (mongodb_db self)) s2)
      as (Hsv & evs & Hev & Hf).
    { intros coll k Hin. rewrite Hs2. revert Hin.
      rewrite (Hs1 p d eq_refl eq_refl). apply swept_is_clean. }
    split; [now rewrite Hsv|].
    exists (evf ++ [ELog INFO (MsgRetention retention d)] ++ evs).
    rewrite Hev. unfold s2. simpl. rewrite Hevf, <- !app_assoc. split; [done|].
    apply Forall_app. split; [done|]. now constructor.
  - split; [done|]. split; [done|]. now exists evf.
  - split; [done|]. split; [done|]. now exists evf.
Qed.

(** ** The index rebuild *)

Lemma add_events_nil s : add_events [] s = s.
Proof. destruct s. unfold add_events. simpl. now rewrite app_nil_r. Qed.

Lemma add_events_app evs1 evs2 s :
  add_events evs2 (add_events evs1 s) = add_events (evs1 ++ evs2) s.
Proof. unfold add_events. simpl. now rewrite app_assoc. Qed.

Lemma for_each_log_run lvl (f : string -> message) (l : list string) s :
  for_each l (λ x, log lvl (f x)) s = (Ok (), add_events ((λ x, ELog lvl (f x)) <$> l) s).
Proof.
  revert s. induction l as [|x l IH]; intros s; simpl.
  - now rewrite add_events_nil.
  - rewrite (run_bind _ _ s () (add_events [ELog lvl (f x)] s)) by done.
    rewrite IH. now rewrite add_events_app.
Qed.

Lemma rebuild_collection_run cl db coll s :
  is_Some (servers s !! client_uri cl) ->
  rebuild_collection cl db coll s =
  (Ok (), add_events (rebuild_collection_events (client_uri cl) db coll
                        (collection_at (servers s) (client_uri cl) db coll)) s).
Proof.
  intros Hs. unfold rebuild_collection, Driver.index_information.
  rewrite (run_bind _ _ s (indexes (collection_at (servers s) (client_uri cl) db coll)) s)
    by (now rewrite (run_bind _ _ _ _ _ (the_collection_run cl db coll s Hs))).
  set (k := collection_at (servers s) (client_uri cl) db coll).
  rewrite (run_bind _ _ s () (add_events [ELog DEBUG (MsgIndexList coll)] s)) by done.
  rewrite (run_bind _ _ _ _ _ (for_each_log_run DEBUG MsgIndex (indexes k) _)).
  rewrite add_events_app.
  set (s2 := add_events _ s).
  assert (Hr : Driver.reindex cl db coll s2 =
               (Ok (), add_events [EReindex (client_uri cl) db coll] s2)).
  { unfold Driver.reindex, Driver.the_server. unfold_M. simpl.
    destruct Hs as [sv ->]. reflexivity. }
  rewrite (run_bind _ _ _ _ _ Hr). unfold s2. rewrite add_events_app.
  unfold log, modify, emit, add_events, rebuild_collection_events. simpl.
  do 2 f_equal. rewrite <- app_assoc. f_equal. simpl. f_equal.
  now rewrite <- app_assoc.
Qed.

Lemma for_each_rebuild_run cl db names s :
  is_Some (servers s !! client_uri cl) ->
  for_each names (rebuild_collection cl db) s =
  (Ok (), add_events (rebuild_events (servers s) (client_uri cl) db names) s).
Proof.
  intros Hs. revert s Hs. induction names as [|coll names IH]; intros s Hs; simpl.
  - now rewrite add_events_nil.
  - rewrite (run_bind _ _ _ _ _ (rebuild_collection_run cl db coll s Hs)).
    rewrite IH by done. now rewrite add_events_app.
Qed.

Lemma rebuild_hosts_run self hosts slave_found s :
  rebuild_hosts self hosts slave_found s = rebuild_outcome self hosts slave_found s.
Proof.
  revert slave_found s. induction hosts as [|host hosts IH]; intros found s; [done|].
  simpl. rewrite (run_bind _ _ _ _ _ (connect_run self host s)).
  pose proof (is_master_connected self host s) as Hm.
  destruct (reports self (servers s) host) as [[|]|] eqn:E.
  - rewrite (run_bind _ _ _ _ _ Hm). apply IH.
  - rewrite (run_bind _ _ _ _ _ Hm).
    set (s1 := connected self host s).
    rewrite (run_bind _ _ s1 () (add_events [ELog INFO (MsgRebuilding host)] s1)) by done.
    set (s2 := add_events _ s1).
    assert (Hc : __conn s2 = Some (Client (next_id s) (uri_of self host)) ∧
                 is_Some (servers s2 !! uri_of self host) ∧ servers s2 = servers s).
    { unfold s2, s1. simpl. rewrite conn_connected, servers_connected.
      unfold reports in E. destruct (servers s !! uri_of self host); [eauto|done]. }
    destruct Hc as (Hc & Hsome & Hsv).
    rewrite (run_bind _ _ s2 (Client (next_id s) (uri_of self host)) s2)
      by (unfold conn_getitem; unfold_M; cbv beta; now rewrite Hc).
    rewrite (run_bind _ _ _ _ _
               (collection_names_run (Client (next_id s) (uri_of self host))
                  (mongodb_db self) s2 Hsome)).
    rewrite (run_bind _ _ _ _ _
               (for_each_rebuild_run (Client (next_id s) (uri_of self host))
                  (mongodb_db self) _ s2 Hsome)).
    rewrite IH, Hsv. unfold s2. now rewrite add_events_app.
  - now apply run_bind_raise.
Qed.

Lemma reindexes_rebuild_events srv uri db names :
  reindexes (rebuild_events srv uri db names) = (λ coll, (uri, db, coll)) <$> names.
Proof.
  unfold rebuild_events. induction names as [|coll names IH]; [done|].
  rewrite bind_cons, reindexes_app, IH. rewrite fmap_cons.
  unfold rebuild_collection_events. rewrite !reindexes_app.
  assert (H : ∀ l : list string,
             reindexes ((λ idx, ELog DEBUG (MsgIndex idx)) <$> l) = []).
  { induction l; [done|]. now rewrite fmap_cons. }
  rewrite H. reflexivity.
Qed.

Lemma servers_rebuild_outcome self hosts found s :
  servers (rebuild_outcome self hosts found s).2 = servers s.
Proof.
  revert found s. induction hosts as [|host hosts IH]; intros found s; [done|].
  simpl. destruct (reports self (servers s) host) as [[|]|]; simpl;
    rewrite ?IH; simpl; apply servers_connected.
Qed.

Lemma reindexes_rebuild_outcome self hosts found s :
  reindexes (trace (rebuild_outcome self hosts found s).2) =
  reindexes (trace s) ++ (visited self (servers s) hosts ≫= rebuilt_on self (servers s)).
Proof.
  revert found s. induction hosts as [|host hosts IH]; intros found s.
  - simpl. now rewrite app_nil_r.
  - cbn [rebuild_outcome visited]. unfold reports at 1.
    destruct (servers s !! uri_of self host) as [sv|] eqn:E.
    + rewrite bind_cons. unfold rebuilt_on at 1, reports. rewrite E.
      change (ismaster <$> Some sv) with (Some (ismaster sv)).
      destruct (ismaster sv); cbv iota.
      * rewrite IH, servers_connected, trace_connected, reindexes_app,
          reindexes_connect_events. now rewrite app_nil_r.
      * rewrite IH. cbn [servers add_events trace]. rewrite servers_connected, trace_connected.
        rewrite !reindexes_app, reindexes_connect_events.
        change (ELog INFO (MsgRebuilding host) :: ?l) with ([ELog INFO (MsgRebuilding host)] ++ l).
        rewrite reindexes_app, reindexes_rebuild_events. simpl.
        now rewrite app_nil_r, <- app_assoc.
    + cbn [fmap option_fmap option_map snd]. rewrite trace_connected, reindexes_app,
        reindexes_connect_events.
      now rewrite !app_nil_r.
Qed.

Lemma visited_all_reachable self srv hosts :
  Forall (λ h, is_Some (srv !! uri_of self h)) hosts -> visited self srv hosts = hosts.
Proof.
  induction 1 as [|h hosts [sv Hh] H IH]; simpl; [done|]. now rewrite Hh, IH.
Qed.

Lemma visited_sublist self srv hosts h : h ∈ visited self srv hosts -> h ∈ hosts.
Proof.
  induction hosts as [|h' hosts IH]; simpl; [done|].
  destruct (srv !! uri_of self h'); [|inversion 1].
  intros [->|Hin]%elem_of_cons; [left|right; auto].
Qed.

Lemma trace_rebuild_indexes self s :
  reindexes (trace (rebuild_indexes self s).2) =
  reindexes (trace (rebuild_outcome self (mongodb_host_with_port self) false s).2).
Proof.
  unfold rebuild_indexes, mbind, M_bind. rewrite rebuild_hosts_run.
  destruct (rebuild_outcome _ _ _ _) as [[found|e] s']; [|done].
  destruct found; simpl; [done|].
  unfold log, modify, sys_exit, raise, mbind, M_bind. simpl.
  rewrite reindexes_app. simpl. now rewrite app_nil_r.
Qed.

Lemma servers_rebuild_indexes self s :
  servers (rebuild_indexes self s).2 = servers s.
Proof.
  unfold rebuild_indexes, mbind, M_bind. rewrite rebuild_hosts_run.
  pose proof (servers_rebuild_outcome self (mongodb_host_with_port self) false s) as H.
  destruct (rebuild_outcome _ _ _ _) as [[found|e] s']; [|done].
  now destruct found.
Qed.

Lemma elem_of_rebuilt_on self srv host uri db coll :
  (uri, db, coll) ∈ rebuilt_on self srv host ↔
  uri = uri_of self host ∧ db = mongodb_db self ∧
  reports self srv host = Some false ∧
  String.prefix "system." coll = false ∧
  is_Some (database_at srv (uri_of self host) (mongodb_db self) !! coll).
Proof.
  unfold rebuilt_on.
  destruct (reports self srv host) as [[|]|] eqn:E.
  - split; [inversion 1|]. intros (_ & _ & ? & _). done.
  - rewrite list_elem_of_fmap. split.
    + intros (c & [= -> -> ->] & Hin). apply elem_of_swept_names in Hin. tauto.
    + intros (-> & -> & _ & Hin). exists coll. split; [done|].
      now apply elem_of_swept_names.
  - split; [inversion 1|]. intros (_ & _ & ? & _). done.
Qed.

(** C7, as amended: the [reindex] calls of [rebuild_indexes] are all on
    hosts of the list that answer as secondary, on collections of the
    target database whose name does not start with [system.]; none is on a
    host that answers as primary.  When every host of the list can be
    reached, the calls are, host by host in the order of the list, one
    for each such collection of each secondary.  The deployments are left
    as they were. *)
Theorem C7_rebuild_on_secondaries_only self s :
  let hosts := mongodb_host_with_port self in
  let s' := (rebuild_indexes self s).2 in
  servers s' = servers s ∧
  ∃ new,
    reindexes (trace s') = reindexes (trace s) ++ new ∧
    (∀ uri db coll, (uri, db, coll) ∈ new ->
       ∃ host, host ∈ hosts ∧ uri = uri_of self host ∧ db = mongodb_db self ∧
               reports self (servers s) host = Some false ∧
               String.prefix "system." coll = false ∧
               is_Some (database_at (servers s) uri db !! coll)) ∧
    (∀ host db coll, reports self (servers s) host = Some true ->
                     (uri_of self host, db, coll) ∉ new) ∧
    (Forall (reachable self s) hosts ->
       new = hosts ≫= rebuilt_on self (servers s) ∧
       ∀ host coll,
         host ∈ hosts ->
         reports self (servers s) host = Some false ->
         String.prefix "system." coll = false ->
         is_Some (database_at (servers s) (uri_of self host) (mongodb_db self) !! coll) ->
         (uri_of self host, mongodb_db self, coll) ∈ new).
Proof.
  intros hosts s'. split; [apply servers_rebuild_indexes|].
  exists (visited self (servers s) hosts ≫= rebuilt_on self (servers s)).
  assert (Hmem : ∀ uri db coll,
            (uri, db, coll) ∈ visited self (servers s) hosts ≫= rebuilt_on self (servers s) ->
            ∃ host, host ∈ hosts ∧ uri = uri_of self host ∧ db = mongodb_db self ∧
                    reports self (servers s) host = Some false ∧
                    String.prefix "system." coll = false ∧
                    is_Some (database_at (servers s) uri db !! coll)).
  { intros uri db coll (host & Hin & Hv)%list_elem_of_bind.
    apply elem_of_rebuilt_on in Hin as (-> & -> & Hr & Hsys & Hsome).
    exists host. repeat split; try done. now apply visited_sublist in Hv. }
  split; [|split; [exact Hmem|split]].
  - unfold s'. rewrite trace_rebuild_indexes. apply reindexes_rebuild_outcome.
  - intros host db coll Hprim Hin.
    destruct (Hmem _ _ _ Hin) as (host' & _ & Huri & _ & Hsec & _).
    unfold reports in *. rewrite <- Huri in Hsec. congruence.
  - intros Hall. rewrite visited_all_reachable by exact Hall. split; [done|].
    intros host coll Hin Hsec Hsys Hsome.
    apply list_elem_of_bind. exists host. split; [|done].
    now apply elem_of_rebuilt_on.
Qed.

(** On the sample deployment, with primary B, the rebuild sweep reindexes
    [events] on A and on C. *)
Lemma C7_witness :
  reindexes (trace (rebuild_indexes Sample.self Sample.start).2) =
  [("mongodb://A", "prod", "events"); ("mongodb://C", "prod", "events")].
Proof.
  destruct (C7_rebuild_on_secondaries_only Sample.self Sample.start)
    as (_ & new & Htr & _ & _ & Hall).
  destruct Hall as [Hnew _].
  - repeat constructor; eexists; reflexivity.
  - rewrite Htr, Hnew. vm_compute. reflexivity.
Defined.

(** C7 as stated fails on the sample deployment: [system.js] is a
    collection of the target database on the secondary A, and no index
    rebuild is issued on it. *)
Lemma C7_counterexample :
  ¬ rebuilt_everywhere Sample.self Sample.start
      (rebuild_indexes Sample.self Sample.start).2.
Proof.
  intros H. specialize (H "A" "system.js").
  assert (Hin : ("mongodb://A", "prod", "system.js") ∈
                reindexes (trace (rebuild_indexes Sample.self Sample.start).2)).
  { apply H.
    - left.
    - reflexivity.
    - eexists. vm_compute. reflexivity. }
  assert (Htr : reindexes (trace (rebuild_indexes Sample.self Sample.start).2) =
                [("mongodb://A", "prod", "events"); ("mongodb://C", "prod", "events")])
    by (vm_compute; reflexivity).
  rewrite Htr in Hin. clear H Htr.
  apply elem_of_cons in Hin as [Heq|Hin]; [discriminate Heq|].
  apply elem_of_cons in Hin as [Heq|Hin]; [discriminate Heq|].
  inversion Hin.
Qed.

(** ** Month arithmetic *)

Lemma days_in_month_cases y m :
  1 <= m <= 12 ->
  PyDate._days_in_month y m =
  if m =? 2 then (if PyDate._is_leap y then 29 else 28)
  else if (m =? 4) || (m =? 6) || (m =? 9) || (m =? 11) then 30 else 31.
Proof.
  intros Hm.
  assert (H : m = 1 ∨ m = 2 ∨ m = 3 ∨ m = 4 ∨ m = 5 ∨ m = 6 ∨ m = 7 ∨ m = 8 ∨
              m = 9 ∨ m = 10 ∨ m = 11 ∨ m = 12) by lia.
  unfold PyDate._days_in_month.
  destruct H as [->|[->|[->|[->|[->|[->|[->|[->|[->|[->|[->| ->]]]]]]]]]]];
    reflexivity.
Qed.

Lemma add_in_range k t :
  PyDate.valid t ->
  let idx := PyDate.month t + k - 1 in
  let y' := PyDate.year t + idx / 12 in
  let m' := idx mod 12 + 1 in
  PyDate.MINYEAR <= y' <= PyDate.MAXYEAR ->
  MonthDelta.add k t = Ok (PyDate.Date y' m' (Z.min (PyDate.day t) (PyDate._days_in_month y' m'))) ∧
  PyDate.valid (PyDate.Date y' m' (Z.min (PyDate.day t) (PyDate._days_in_month y' m'))).
Proof.
  intros (Hy & Hm & Hd) idx y' m' Hy'.
  assert (Hm' : 1 <= m' <= 12).
  { unfold m'. pose proof (Z.mod_pos_bound idx 12). lia. }
  assert (Hd31 : PyDate.day t <= 31).
  { rewrite days_in_month_cases in Hd by done.
    destruct (PyDate.month t =? 2);
      [destruct (PyDate._is_leap (PyDate.year t))
      |destruct ((PyDate.month t =? 4) || (PyDate.month t =? 6) || (PyDate.month t =? 9) || (PyDate.month t =? 11))];
      lia. }
  unfold MonthDelta.add, PyDate.replace, PyDate._check_date_fields. fold idx. fold y'. fold m'.
  pose proof (days_in_month_cases y' m' Hm') as Hdim.
  unfold PyDate._is_leap in Hdim.
  set (leap := (y' mod 4 =? 0) && (negb (y' mod 100 =? 0) || (y' mod 400 =? 0))) in *.
  assert (Hclamp :
    (if m' =? 2
     then if (29 <=? PyDate.day t) && (y' mod 4 =? 0) && (negb (y' mod 100 =? 0) || (y' mod 400 =? 0))
          then 29 else if 28 <? PyDate.day t then 28 else PyDate.day t
     else if ((m' =? 4) || (m' =? 6) || (m' =? 9) || (m' =? 11)) && (30 <? PyDate.day t)
          then 30 else PyDate.day t) = Z.min (PyDate.day t) (PyDate._days_in_month y' m')).
  { rewrite Hdim. rewrite <- andb_assoc. fold leap.
    destruct (m' =? 2);
      [destruct leap|destruct ((m' =? 4) || (m' =? 6) || (m' =? 9) || (m' =? 11))];
      rewrite ?andb_true_r, ?andb_false_r; cbn [andb];
      repeat match goal with
             | |- context [?a <=? ?b] => destruct (Z.leb_spec a b)
             | |- context [?a <? ?b] => destruct (Z.ltb_spec a b)
             end; lia. }
  rewrite Hclamp.
  set (d' := Z.min (PyDate.day t) (PyDate._days_in_month y' m')).
  assert (Hd' : 1 <= d' <= PyDate._days_in_month y' m').
  { unfold d'. rewrite Hdim in *.
    destruct (m' =? 2);
      [destruct leap|destruct ((m' =? 4) || (m' =? 6) || (m' =? 9) || (m' =? 11))]; lia. }
  assert (Hc1 : (PyDate.MINYEAR <=? y') && (y' <=? PyDate.MAXYEAR) = true).
  { apply andb_true_iff. split; apply Z.leb_le; lia. }
  assert (Hc2 : (1 <=? m') && (m' <=? 12) = true).
  { apply andb_true_iff. split; apply Z.leb_le; lia. }
  assert (Hc3 : (1 <=? d') && (d' <=? PyDate._days_in_month y' m') = true).
  { apply andb_true_iff. split; apply Z.leb_le; lia. }
  rewrite Hc1, Hc2, Hc3. simpl. split; [done|]. unfold PyDate.valid. simpl. lia.
Qed.

Lemma cut_off_date_future t n :
  PyDate.valid t -> n < 0 ->
  PyDate.year t + (PyDate.month t - n - 1) / 12 <= PyDate.MAXYEAR ->
  ∃ d, cut_off_date t n = Ok d ∧ PyDate.valid d ∧ PyDate.lt t d.
Proof.
  intros Hv Hn Hr. unfold cut_off_date, MonthDelta.rsub.
  pose proof Hv as (Hy & Hm & Hd).
  assert (Hidx : PyDate.month t + - n - 1 = PyDate.month t - n - 1) by lia.
  destruct (add_in_range (- n) t Hv) as [Hadd Hvalid].
  { rewrite Hidx. unfold PyDate.MINYEAR, PyDate.MAXYEAR in *.
    assert (0 <= (PyDate.month t - n - 1) / 12) by (apply Z.div_pos; lia). lia. }
  rewrite Hidx in *. eexists. split; [exact Hadd|]. split; [exact Hvalid|].
  unfold PyDate.lt. simpl.
  assert (H0 : 0 <= (PyDate.month t - n - 1) / 12) by (apply Z.div_pos; lia).
  destruct (Z.eq_dec ((PyDate.month t - n - 1) / 12) 0) as [E|E]; [right|left; lia].
  split; [lia|]. left.
  pose proof (Z.div_mod (PyDate.month t - n - 1) 12 ltac:(lia)) as Hdm.
  rewrite E in Hdm. lia.
Qed.

Lemma main_steps a :
  main a =
  (if truthy (retention a)
   then cut_old_data (MongoDB_init a) (default 0 (retention a))
   else log INFO MsgNoRetention) ≫= λ _, after_retention a.
Proof. reflexivity. Qed.

Lemma trace_rebuild_outcome_prefix self hosts found s :
  trace s `prefix_of` trace (rebuild_outcome self hosts found s).2.
Proof.
  revert found s. induction hosts as [|host hosts IH]; intros found s; [done|].
  cbn [rebuild_outcome].
  assert (Hc : trace s `prefix_of` trace (connected self host s)).
  { rewrite trace_connected. now apply prefix_app_r. }
  destruct (reports self (servers s) host) as [[|]|]; [| |done].
  - etrans; [exact Hc|apply IH].
  - etrans; [exact Hc|]. etrans; [|apply IH]. simpl. now apply prefix_app_r.
Qed.

(** The steps after the retention step only add to the trace and leave
    the deployments as they are. *)
Lemma after_retention_frame a s :
  servers (after_retention a s).2 = servers s ∧
  trace s `prefix_of` trace (after_retention a s).2.
Proof.
  unfold after_retention, mbind, M_bind.
  set (step := if rebuild a then rebuild_indexes (MongoDB_init a)
               else log INFO MsgNoRebuild).
  assert (Hstep : servers (step s).2 = servers s ∧ trace s `prefix_of` trace (step s).2).
  { unfold step. destruct (rebuild a).
    - split; [apply servers_rebuild_indexes|].
      unfold rebuild_indexes, mbind, M_bind. rewrite rebuild_hosts_run.
      pose proof (trace_rebuild_outcome_prefix (MongoDB_init a)
                    (mongodb_host_with_port (MongoDB_init a)) false s) as H.
      destruct (rebuild_outcome _ _ _ _) as [[found|e] s']; [|done].
      destruct found; [done|]. simpl in *.
      unfold log, modify, sys_exit, raise, mbind, M_bind. simpl.
      now apply prefix_app_r.
    - split; [done|]. simpl. now apply prefix_app_r. }
  destruct (step s) as [[[]|e] s1]; [|exact Hstep]. simpl in Hstep.
  rewrite close_run. simpl. destruct Hstep as [Hs Ht].
  split; [now rewrite servers_closed|].
  etrans; [exact Ht|]. unfold closed. destruct (__conn s1); simpl; [|done].
  now apply prefix_app_r.
Qed.

(** C9: the entry point runs the retention sweep exactly when the parsed
    [--retention] value is truthy.  Without the flag the script logs that
    retention is skipped and goes on to the rebuild step from a state that
    differs from the start by that log only, and with [--retention 0] it
    does exactly the same.  With any other integer [n], negative ones
    included, it runs [cut_old_data] with [n]: when a primary is found and
    the cutoff date [d], today minus [n] months, is defined, the run logs
    the retention with [d], issues a [remove] of [timestamp < C] for the
    timestamp [C] of [d] on every enumerated collection of the primary,
    and ends with those collections holding their former documents that
    do not match.  For a negative [n] that date lies after today (as long
    as it is a date that [date] can hold). *)
Theorem C9_retention_gated_on_truthiness a s n :
  let self := MongoDB_init a in
  main (with_retention None a) s
    = after_retention a (emit (ELog INFO MsgNoRetention) s) ∧
  main (with_retention (Some 0) a) s = main (with_retention None a) s ∧
  (n ≠ 0 ->
   main (with_retention (Some n) a) s
     = (cut_old_data self n ≫= λ _, after_retention a) s ∧
   ∀ before p after d,
     mongodb_host_with_port self = before ++ p :: after ->
     Forall (λ h, reports self (servers s) h = Some false) before ->
     reports self (servers s) p = Some true ->
     cut_off_date (today s) n = Ok d ->
     let q := QLt "timestamp" (cut_off_timestamp d) in
     let s' := (main (with_retention (Some n) a) s).2 in
     ELog INFO (MsgRetention n d) ∈ trace s' ∧
     ∀ coll k,
       String.prefix "system." coll = false ->
       database_at (servers s) (uri_of self p) (mongodb_db self) !! coll = Some k ->
       ERemove (uri_of self p) (mongodb_db self) coll q ∈ trace s' ∧
       database_at (servers s') (uri_of self p) (mongodb_db self) !! coll
         = Some (Driver.remove_docs q k)) ∧
  (n < 0 -> PyDate.valid (today s) ->
   PyDate.year (today s) + (PyDate.month (today s) - n - 1) / 12 <= PyDate.MAXYEAR ->
   ∃ d, cut_off_date (today s) n = Ok d ∧ PyDate.valid d ∧ PyDate.lt (today s) d).
Proof.
  intros self. split; [reflexivity|]. split; [reflexivity|]. split.
  - intros Hn.
    assert (Hmain : main (with_retention (Some n) a) s
                    = (cut_old_data self n ≫= λ _, after_retention a) s).
    { rewrite main_steps. simpl. now rewrite (proj2 (Z.eqb_neq n 0) Hn). }
    split; [exact Hmain|].
    intros before p after d Hhosts Hbefore Hp Hd q s'.
    unfold s'. rewrite Hmain. clear s' Hmain.
    pose proof (cut_old_data_run self n s) as Hrun.
    unfold cut_old_data_outcome in Hrun.
    rewrite Hhosts, (discover_Ok self (servers s) before p after Hbefore Hp), Hd in Hrun.
    rewrite <- Hhosts in Hrun.
    set (s0 := emit (ELog INFO (MsgRetention n d))
                 (find_primary_state self (mongodb_host_with_port self) s)) in *.
    set (names := swept_names (servers s) (uri_of self p) (mongodb_db self)) in *.
    set (s1 := sweep_state (uri_of self p) (mongodb_db self) (cut_off_timestamp d)
                 names s0) in *.
    rewrite (run_bind _ _ _ _ _ Hrun).
    destruct (after_retention_frame a s1) as [Hsv Htr].
    assert (Hs0 : servers s0 = servers s).
    { unfold s0. now rewrite servers_emit, servers_find_primary_state. }
    split.
    + eapply elem_of_prefix; [|exact Htr].
      eapply elem_of_prefix; [|apply trace_sweep_state_prefix].
      unfold s0. simpl. apply elem_of_app. right. apply list_elem_of_here.
    + intros coll k Hsys Hk.
      assert (Hin : coll ∈ names).
      { apply elem_of_swept_names. split; [done|]. rewrite Hk. eauto. }
      split.
      * eapply elem_of_prefix; [|exact Htr].
        apply (sweep_events_in_trace (uri_of self p) (mongodb_db self)
                 (cut_off_timestamp d) names s0 coll
                 (NoDup_filter _ _ (NoDup_fst_map_to_list _)) Hin).
        unfold sweep_events. fold q. set_solver.
      * rewrite Hsv. unfold s1. rewrite lookup_sweep_state, Hs0.
        rewrite decide_True by done. now rewrite Hk.
  - intros Hn Hv Hr. now apply cut_off_date_future.
Qed.

(** With [--retention -1] on the sample deployment the sweep runs with
    30 April 2018, a date after today, as cutoff date: it removes from
    [events] on the primary with that timestamp. *)
Lemma C9_witness :
  let a := Args "prod" ["A"; "B"; "C"] None None None false in
  let s' := (main (with_retention (Some (-1)) a) Sample.start).2 in
  (∃ d, cut_off_date (today Sample.start) (-1) = Ok d ∧
        PyDate.valid d ∧ PyDate.lt (today Sample.start) d) ∧
  ELog INFO (MsgRetention (-1) (PyDate.Date 2018 4 30)) ∈ trace s' ∧
  ERemove "mongodb://B" "prod" "events"
    (QLt "timestamp" (cut_off_timestamp (PyDate.Date 2018 4 30))) ∈ trace s'.
Proof.
  intros a s'.
  pose proof (C9_retention_gated_on_truthiness a Sample.start (-1))
    as (_ & _ & Hrun & Hdate).
  split.
  - apply Hdate.
    + lia.
    + unfold PyDate.valid. simpl. unfold PyDate.MINYEAR, PyDate.MAXYEAR.
      vm_compute. repeat split; discriminate.
    + vm_compute. discriminate.
  - destruct Hrun as [_ Hrun]; [lia|].
    destruct (Hrun ["A"] "B" ["C"] (PyDate.Date 2018 4 30)) as [Hlog Hcoll].
    + reflexivity.
    + repeat constructor.
    + reflexivity.
    + reflexivity.
    + split; [exact Hlog|].
      apply (Hcoll "events"
               (Collection [Sample.doc 5; Sample.doc 2000000000000; {[ "x" := VInt 1 ]}]
                           ["_id_"])).
      * reflexivity.
      * reflexivity.
Defined.

(** ** The cutoff *)

Lemma month_length_days_in_month y m :
  1 <= m <= 12 -> CutoffSpec.month_length y m = PyDate._days_in_month y m.
Proof. intros Hm. now rewrite days_in_month_cases. Qed.

Lemma leap_year_step y :
  PyDate._days_before_year (y + 1) + CutoffSpec.year_length (y + 1) =
  PyDate._days_before_year (y + 2).
Proof.
  unfold PyDate._days_before_year, CutoffSpec.year_length, CutoffSpec.leap_year.
  cbv zeta. replace (y + 1 - 1) with y by lia. replace (y + 2 - 1) with (y + 1) by lia.
  destruct (Z.eqb_spec ((y + 1) mod 4) 0) as [H4|H4];
  destruct (Z.eqb_spec ((y + 1) mod 100) 0) as [H100|H100];
  destruct (Z.eqb_spec ((y + 1) mod 400) 0) as [H400|H400]; simpl;
    Z.div_mod_to_equations; lia.
Qed.

Lemma sum_year_lengths n :
  CutoffSpec.sum_upto CutoffSpec.year_length n = PyDate._days_before_year (Z.of_nat n + 1).
Proof.
  induction n as [|n IH].
  - reflexivity.
  - cbn [CutoffSpec.sum_upto]. rewrite IH.
    replace (Z.of_nat (S n)) with (Z.of_nat n + 1) by lia.
    replace (Z.of_nat n + 1 + 1) with (Z.of_nat n + 2) by lia.
    apply leap_year_step.
Qed.

Lemma sum_month_lengths y m :
  1 <= m <= 12 ->
  CutoffSpec.sum_upto (CutoffSpec.month_length y) (Z.to_nat (m - 1)) =
  PyDate._days_before_month y m.
Proof.
  intros Hm.
  assert (H : m = 1 ∨ m = 2 ∨ m = 3 ∨ m = 4 ∨ m = 5 ∨ m = 6 ∨ m = 7 ∨ m = 8 ∨
              m = 9 ∨ m = 10 ∨ m = 11 ∨ m = 12) by lia.
  unfold PyDate._days_before_month, PyDate._is_leap.
  destruct H as [->|[->|[->|[->|[->|[->|[->|[->|[->|[->|[->| ->]]]]]]]]]]];
    vm_compute Z.to_nat; cbn [CutoffSpec.sum_upto];
    unfold CutoffSpec.month_length, CutoffSpec.leap_year; simpl;
    destruct ((y mod 4 =? 0) && (negb (y mod 100 =? 0) || (y mod 400 =? 0)));
    reflexivity.
Qed.

Lemma day_number_toordinal t :
  1 <= PyDate.year t -> 1 <= PyDate.month t <= 12 ->
  CutoffSpec.day_number t = PyDate.toordinal t.
Proof.
  intros Hy Hm. unfold CutoffSpec.day_number, PyDate.toordinal, PyDate._ymd2ord.
  rewrite sum_year_lengths, sum_month_lengths by done.
  now replace (Z.of_nat (Z.to_nat (PyDate.year t - 1)) + 1) with (PyDate.year t) by lia.
Qed.

Lemma timegm_epoch_seconds t :
  1 <= PyDate.year t -> 1 <= PyDate.month t <= 12 ->
  PyCalendar.timegm (PyDate.timetuple t) = CutoffSpec.epoch_seconds t.
Proof.
  intros Hy Hm. unfold CutoffSpec.epoch_seconds.
  rewrite (day_number_toordinal t Hy Hm).
  rewrite (day_number_toordinal (PyDate.Date 1970 1 1)) by (simpl; lia).
  unfold PyCalendar.timegm, PyDate.timetuple, PyCalendar._EPOCH_ORD, PyCalendar.EPOCH.
  unfold PyDate.toordinal, PyDate._ymd2ord. simpl PyDate.year. simpl PyDate.month.
  simpl PyDate.day. lia.
Qed.

Lemma minus_months_index t n :
  let idx := PyDate.month t + - n - 1 in
  CutoffSpec.minus_months t n =
  PyDate.Date (PyDate.year t + idx / 12) (idx mod 12 + 1)
    (Z.min (PyDate.day t)
       (CutoffSpec.month_length (PyDate.year t + idx / 12) (idx mod 12 + 1))).
Proof.
  intros idx. unfold CutoffSpec.minus_months.
  assert (Hq : (12 * PyDate.year t + (PyDate.month t - 1) - n) / 12
               = PyDate.year t + idx / 12).
  { unfold idx. Z.div_mod_to_equations. lia. }
  assert (Hr : (12 * PyDate.year t + (PyDate.month t - 1) - n) mod 12 = idx mod 12).
  { unfold idx. Z.div_mod_to_equations. lia. }
  cbv zeta. now rewrite Hq, Hr.
Qed.

Lemma cut_off_date_in_range t n :
  PyDate.valid t -> 0 <= n -> n <= 12 * (PyDate.year t - 1) + PyDate.month t - 1 ->
  cut_off_date t n = Ok (CutoffSpec.minus_months t n) ∧
  PyDate.valid (CutoffSpec.minus_months t n) ∧
  cut_off_timestamp (CutoffSpec.minus_months t n) = CutoffSpec.cutoff t n.
Proof.
  intros Hv Hn Hr. pose proof Hv as (Hy & Hm & Hd).
  unfold PyDate.MINYEAR, PyDate.MAXYEAR in *.
  rewrite minus_months_index. cbv zeta.
  set (idx := PyDate.month t + - n - 1).
  assert (Hm' : 1 <= idx mod 12 + 1 <= 12).
  { pose proof (Z.mod_pos_bound idx 12). lia. }
  assert (Hy' : 1 <= PyDate.year t + idx / 12 <= 9999).
  { unfold idx. Z.div_mod_to_equations. lia. }
  rewrite month_length_days_in_month by done.
  destruct (add_in_range (- n) t Hv Hy') as [Hadd Hvalid].
  fold idx in Hadd, Hvalid.
  split; [exact Hadd|]. split; [exact Hvalid|].
  unfold cut_off_timestamp, CutoffSpec.cutoff.
  rewrite timegm_epoch_seconds by (simpl; lia).
  rewrite minus_months_index. cbv zeta. fold idx.
  now rewrite month_length_days_in_month by done.
Qed.

Lemma cut_off_date_overflow t n :
  PyDate.valid t -> 12 * (PyDate.year t - 1) + PyDate.month t - 1 < n ->
  cut_off_date t n = Raise OverflowError.
Proof.
  intros (Hy & Hm & Hd) Hn.
  unfold cut_off_date, MonthDelta.rsub, MonthDelta.add, PyDate.replace,
    PyDate._check_date_fields.
  set (idx := PyDate.month t + - n - 1).
  assert (Hy' : PyDate.year t + idx / 12 < 1).
  { unfold idx. Z.div_mod_to_equations. lia. }
  assert (Hc : (PyDate.MINYEAR <=? PyDate.year t + idx / 12) = false).
  { apply Z.leb_gt. unfold PyDate.MINYEAR. lia. }
  now rewrite Hc.
Qed.

(** C3, as amended: for a retention [n >= 0] that does not reach back
    before January of year 1, the cutoff date of [cut_old_data] is today
    minus [n] months with the day clamped into the target month, a valid
    date, and the cutoff timestamp is the number of whole seconds from the
    UTC epoch to that date, times 1000; the sweep that finds a primary
    logs that date and removes with that timestamp. *)
Theorem C3_cutoff_is_today_minus_months t n
    (Hvalid : PyDate.valid t) (Hn : 0 <= n)
    (Hrange : n <= 12 * (PyDate.year t - 1) + PyDate.month t - 1) :
  cut_off_date t n = Ok (CutoffSpec.minus_months t n) ∧
  PyDate.valid (CutoffSpec.minus_months t n) ∧
  cut_off_timestamp (CutoffSpec.minus_months t n) = CutoffSpec.cutoff t n ∧
  ∀ self s p,
    today s = t ->
    discover self (servers s) (mongodb_host_with_port self) = Ok p ->
    cut_old_data self n s =
    (Ok (),
     sweep_state (uri_of self p) (mongodb_db self) (CutoffSpec.cutoff t n)
       (swept_names (servers s) (uri_of self p) (mongodb_db self))
       (emit (ELog INFO (MsgRetention n (CutoffSpec.minus_months t n)))
          (find_primary_state self (mongodb_host_with_port self) s))).
Proof.
  destruct (cut_off_date_in_range t n Hvalid Hn Hrange) as (Hd & Hv & Hts).
  split; [exact Hd|]. split; [exact Hv|]. split; [exact Hts|].
  intros self s p Ht Hp. rewrite cut_old_data_run. unfold cut_old_data_outcome.
  now rewrite Hp, Ht, Hd, Hts.
Qed.

(** On 31 March 2018 one month of retention gives 28 February 2018,
    midnight UTC, in milliseconds. *)
Lemma C3_witness :
  cut_off_date (PyDate.Date 2018 3 31) 1 = Ok (PyDate.Date 2018 2 28) ∧
  cut_off_timestamp (PyDate.Date 2018 2 28) = 1519776000000 ∧
  CutoffSpec.cutoff (PyDate.Date 2018 3 31) 1 = 1519776000000.
Proof.
  destruct (C3_cutoff_is_today_minus_months (PyDate.Date 2018 3 31) 1)
    as (Hd & _ & Hts & _).
  - unfold PyDate.valid. vm_compute. repeat split; discriminate.
  - lia.
  - simpl. lia.
  - split; [exact Hd|]. split; [reflexivity|]. rewrite <- Hts. reflexivity.
Defined.

(** C3 as stated fails for large retentions: 30000 months before
    31 March 2018 is before year 1, [monthdelta] raises [OverflowError],
    and [cut_old_data] ends with it, having computed no cutoff. *)
Lemma C3_counterexample :
  0 <= 30000 ∧
  PyDate.valid (PyDate.Date 2018 3 31) ∧
  cut_off_date (PyDate.Date 2018 3 31) 30000 = Raise OverflowError ∧
  ¬ (∃ d, cut_off_date (PyDate.Date 2018 3 31) 30000 = Ok d) ∧
  (cut_old_data Sample.self 30000 Sample.start).1 = Raise OverflowError.
Proof.
  split; [lia|]. split.
  { unfold PyDate.valid. vm_compute. repeat split; discriminate. }
  split; [reflexivity|]. split.
  - intros [d Hd]. vm_compute in Hd. discriminate Hd.
  - vm_compute. reflexivity.
Qed.

(** * Further properties of the script *)

(** ** [connect] *)

(** X1: [connect] never raises.  It leaves the deployments as they are;
    when the host answers, [__conn] afterwards holds a client for the URI
    of that host, which is open; when it does not, [__conn] is [None] and
    the last thing done is the error log.  A client held before the call
    has been closed either way. *)
Theorem X1_connect_never_raises self host s :
  ∃ s', connect self host s = (Ok (), s') ∧
        servers s' = servers s ∧
        (reachable self s host ->
         ∃ cl, __conn s' = Some cl ∧ client_uri cl = uri_of self host ∧
               cl ∈ open_clients s') ∧
        (¬ reachable self s host ->
         __conn s' = None ∧ last (trace s') = Some (ELog ERROR MsgConnectionError)) ∧
        (∀ cl, __conn s = Some cl -> EClose cl ∈ trace s').
Proof.
  exists (connected self host s). split; [apply connect_run|].
  split; [apply servers_connected|]. split; [|split].
  - intros [sv Hsv]. exists (Client (next_id (closed s)) (uri_of self host)).
    unfold connected. rewrite Hsv. unfold opened. simpl.
    split; [done|]. split; [done|].
    apply elem_of_app. right. apply list_elem_of_here.
  - intros Hn.
    assert (E : servers s !! uri_of self host = None).
    { destruct (servers s !! uri_of self host) eqn:E; [|done].
      exfalso. apply Hn. unfold reachable. rewrite E. eauto. }
    split; [now rewrite conn_connected, E|].
    unfold connected. rewrite E. unfold refused. simpl. apply last_snoc.
  - intros cl Hcl. rewrite trace_connected. unfold connect_events. rewrite Hcl.
    apply elem_of_app. right. apply list_elem_of_here.
Qed.

(** X2: without a user name [connect] uses the unauthenticated URI,
    whatever the password: a password given without a user name is not
    used. *)
Theorem X2_password_without_user_is_ignored self host s
    (Huser : mongodb_user self = None) :
  connects (trace (connect self host s).2) =
  connects (trace s) ++ ["mongodb://" +:+ host].
Proof.
  rewrite connect_run. simpl.
  rewrite trace_connected, connects_app, connects_connect_events.
  unfold uri_of. now rewrite Huser.
Qed.

Lemma X2_witness :
  connects (trace (connect
                     {| mongodb_host_with_port := ["A"]; mongodb_db := "prod";
                        mongodb_user := None; mongodb_password := Some "secret" |}
                     "A" Sample.start).2) = ["mongodb://A"].
Proof.
  apply (X2_password_without_user_is_ignored
           {| mongodb_host_with_port := ["A"]; mongodb_db := "prod";
              mongodb_user := None; mongodb_password := Some "secret" |}
           "A" Sample.start).
  reflexivity.
Defined.

(** ** A host that is down, in general *)

Lemma not_reachable_reports self s h :
  ¬ reachable self s h -> reports self (servers s) h = None.
Proof.
  intros Hn. unfold reports, reachable in *.
  destruct (servers s !! uri_of self h); [|done]. exfalso. eauto.
Qed.

Lemma discover_unreachable self srv before h after :
  Forall (λ h', reports self srv h' = Some false) before ->
  reports self srv h = None ->
  discover self srv (before ++ h :: after) = Raise TypeError ∧
  probed self srv (before ++ h :: after) = before ++ [h].
Proof.
  intros Hb Hh. induction Hb as [|h' before Hh' Hb [IH1 IH2]]; simpl.
  - now rewrite Hh.
  - now rewrite Hh', IH1, IH2.
Qed.

(** X3: a host that cannot be reached ends the retention sweep.  When
    the hosts before it answer as secondary, [cut_old_data] connects to
    them and to it, and then raises the [TypeError] of asking a missing
    connection for its role: no later host is tried, nothing is removed
    and the deployments are as they were. *)
Theorem X3_unreachable_host_ends_the_sweep self retention s before h after
    (Hhosts : mongodb_host_with_port self = before ++ h :: after)
    (Hbefore : Forall (λ h', reports self (servers s) h' = Some false) before)
    (Hdown : ¬ reachable self s h) :
  ∃ s', cut_old_data self retention s = (Raise TypeError, s') ∧
        connects (trace s') = connects (trace s) ++ (uri_of self <$> before ++ [h]) ∧
        removals (trace s') = removals (trace s) ∧
        servers s' = servers s.
Proof.
  destruct (discover_unreachable self (servers s) before h after Hbefore
              (not_reachable_reports self s h Hdown)) as [Hd Hp].
  pose proof (trace_cut_old_data_connects self retention s) as Hc.
  rewrite cut_old_data_run in *. unfold cut_old_data_outcome in *.
  rewrite Hhosts, Hd in *. simpl in Hc. rewrite Hp in Hc.
  eexists. split; [reflexivity|]. split; [exact Hc|].
  split; [apply removals_find_primary_state|apply servers_find_primary_state].
Qed.

Lemma X3_witness :
  ∃ s', cut_old_data Sample.self 1 Sample.start_A_down = (Raise TypeError, s') ∧
        connects (trace s') = ["mongodb://A"] ∧
        removals (trace s') = [].
Proof.
  destruct (X3_unreachable_host_ends_the_sweep Sample.self 1 Sample.start_A_down
              [] "A" ["B"; "C"]) as (s' & H1 & H2 & H3 & _).
  - reflexivity.
  - constructor.
  - intros [sv Hsv]. vm_compute in Hsv. discriminate Hsv.
  - exists s'. split; [exact H1|]. split; [exact H2|exact H3].
Defined.

Lemma rebuild_outcome_unreachable self before h after found s :
  Forall (reachable self s) before ->
  ¬ reachable self s h ->
  (rebuild_outcome self (before ++ h :: after) found s).1 = Raise TypeError ∧
  visited self (servers s) (before ++ h :: after) = before.
Proof.
  intros Hb Hh. revert found s Hb Hh.
  induction before as [|h' before IH]; intros found s Hb Hh.
  - simpl. rewrite (not_reachable_reports self s h Hh).
    unfold reachable in Hh. destruct (servers s !! uri_of self h); [|done].
    exfalso. eauto.
  - apply Forall_cons in Hb as [[sv Hsv] Hb]. cbn [app rebuild_outcome visited].
    unfold reports. rewrite Hsv. cbn [fmap option_fmap option_map].
    assert (Hr : ∀ s1, servers s1 = servers s ->
                       Forall (reachable self s1) before ∧ ¬ reachable self s1 h).
    { intros s1 E. unfold reachable. now rewrite E. }
    destruct (ismaster sv).
    + destruct (Hr (connected self h' s) (servers_connected _ _ _)) as [H1 H2].
      destruct (IH found _ H1 H2) as [IH1 IH2].
      rewrite servers_connected in IH2. now rewrite IH1, IH2.
    + match goal with |- context [rebuild_outcome _ _ true ?s1] =>
        destruct (Hr s1 (servers_connected _ _ _)) as [H1 H2];
        destruct (IH true s1 H1 H2) as [IH1 IH2]
      end.
      simpl in IH2. rewrite servers_connected in IH2. now rewrite IH1, IH2.
Qed.

(** X4: a host that cannot be reached ends the rebuild sweep too.  When
    the hosts before it can be reached, [rebuild_indexes] raises the same
    [TypeError]; the secondaries before that host have been rebuilt, the
    hosts after it are not visited. *)
Theorem X4_unreachable_host_ends_the_rebuild self s before h after
    (Hhosts : mongodb_host_with_port self = before ++ h :: after)
    (Hbefore : Forall (reachable self s) before)
    (Hdown : ¬ reachable self s h) :
  (rebuild_indexes self s).1 = Raise TypeError ∧
  reindexes (trace (rebuild_indexes self s).2) =
  reindexes (trace s) ++ (before ≫= rebuilt_on self (servers s)).
Proof.
  destruct (rebuild_outcome_unreachable self before h after false s Hbefore Hdown)
    as [Hr Hv].
  split.
  - unfold rebuild_indexes, mbind, M_bind. rewrite rebuild_hosts_run, Hhosts.
    destruct (rebuild_outcome _ _ _ _) as [[b|e] s']; simpl in *; [done|].
    now injection Hr as ->.
  - rewrite trace_rebuild_indexes, reindexes_rebuild_outcome, Hhosts. now rewrite Hv.
Qed.

Lemma X4_witness :
  (rebuild_indexes Sample.self Sample.start_A_down).1 = Raise TypeError ∧
  reindexes (trace (rebuild_indexes Sample.self Sample.start_A_down).2) = [].
Proof.
  destruct (X4_unreachable_host_ends_the_rebuild Sample.self Sample.start_A_down
              [] "A" ["B"; "C"]) as [H1 H2].
  - reflexivity.
  - constructor.
  - intros [sv Hsv]. vm_compute in Hsv. discriminate Hsv.
  - split; [exact H1|exact H2].
Defined.

(** ** The outcome of the rebuild sweep *)






(** ** What the retention sweep writes *)

Lemma removals_sweep_state uri db cutoff names s :
  removals (trace (sweep_state uri db cutoff names s)) =
  removals (trace s) ++ ((λ coll, (uri, db, coll)) <$> names).
Proof.
  revert s. induction names as [|coll names IH]; intros s.
  - simpl. now rewrite app_nil_r.
  - unfold sweep_state in *. simpl. rewrite IH. simpl.
    rewrite removals_app. simpl. now rewrite <- app_assoc.
Qed.

Lemma lookup_sweep_state_ne uri db cutoff names s uri' :
  uri ≠ uri' ->
  servers (sweep_state uri db cutoff names s) !! uri' = servers s !! uri'.
Proof.
  intros Hne. revert s. induction names as [|coll names IH]; intros s; [done|].
  unfold sweep_state in *. simpl. rewrite IH. simpl.
  unfold Driver.update_collection. now rewrite lookup_alter_ne.
Qed.

(** X6: [cut_old_data] issues [remove] only on a host that answers as
    primary and only in the target database.  When it returns, it has
    found a first primary and issued exactly one [remove] for each
    collection that exists in the target database there and whose name
    does not start with [system.], and no other; when it ends with an
    exception it has issued none. *)
Theorem X6_removes_only_on_the_primary self retention s :
  let r := cut_old_data self retention s in
  ∃ new,
    removals (trace r.2) = removals (trace s) ++ new ∧
    NoDup new ∧
    (∀ uri db coll, (uri, db, coll) ∈ new ->
       ismaster <$> servers s !! uri = Some true ∧
       db = mongodb_db self ∧
       String.prefix "system." coll = false ∧
       is_Some (database_at (servers s) uri db !! coll)) ∧
    (r.1 = Ok () ->
     ∃ p, discover self (servers s) (mongodb_host_with_port self) = Ok p ∧
          ∀ uri db coll,
            (uri, db, coll) ∈ new ↔
            uri = uri_of self p ∧ db = mongodb_db self ∧
            String.prefix "system." coll = false ∧
            is_Some (database_at (servers s) (uri_of self p) (mongodb_db self) !! coll)) ∧
    (r.1 ≠ Ok () -> new = []).
Proof.
  cbv zeta. rewrite cut_old_data_run. unfold cut_old_data_outcome.
  destruct (discover self (servers s) (mongodb_host_with_port self)) as [p|e] eqn:Hp;
    [destruct (cut_off_date (today s) retention) as [d|e] eqn:Hd|]; simpl.
  - exists ((λ coll, (uri_of self p, mongodb_db self, coll)) <$>
            swept_names (servers s) (uri_of self p) (mongodb_db self)).
    split.
    { rewrite removals_sweep_state. simpl. rewrite removals_app. simpl.
      now rewrite app_nil_r, removals_find_primary_state. }
    split.
    { apply NoDup_fmap_2.
      - intros c1 c2 [= ->]. done.
      - apply NoDup_filter, NoDup_fst_map_to_list. }
    split; [|split; [|done]].
    + intros uri db coll (c & [= -> -> ->] & Hin)%list_elem_of_fmap.
      apply elem_of_swept_names in Hin as [Hsys Hsome].
      destruct (discover_Ok_inv _ _ _ _ Hp) as (before & after & _ & _ & Hprim).
      done.
    + intros _. exists p. split; [done|]. intros uri db coll.
      rewrite list_elem_of_fmap. split.
      * intros (c & [= -> -> ->] & Hin). apply elem_of_swept_names in Hin. tauto.
      * intros (-> & -> & Hsys & Hsome). exists coll. split; [done|].
        now apply elem_of_swept_names.
  - exists []. rewrite app_nil_r. split; [apply removals_find_primary_state|].
    split; [constructor|]. split; [|split; [done|done]]. intros ? ? ? H. inversion H.
  - exists []. rewrite app_nil_r. split; [apply removals_find_primary_state|].
    split; [constructor|]. split; [|split; [done|done]]. intros ? ? ? H. inversion H.
Qed.

(** X7: the retention sweep only takes documents away, and only in the
    target database.  Whatever its outcome, every database other than
    the target keeps its content on every host, no host changes its role,
    and every collection anywhere still exists afterwards with the same
    indexes and a sublist, in the same order, of its documents. *)
Theorem X7_sweep_only_removes_documents self retention s :
  let s' := (cut_old_data self retention s).2 in
  (∀ uri db, db ≠ mongodb_db self ->
             database_at (servers s') uri db = database_at (servers s) uri db) ∧
  (∀ uri, ismaster <$> servers s' !! uri = ismaster <$> servers s !! uri) ∧
  (∀ uri db coll,
     match database_at (servers s) uri db !! coll with
     | Some k => ∃ k', database_at (servers s') uri db !! coll = Some k' ∧
                       indexes k' = indexes k ∧
                       docs k' `sublist_of` docs k
     | None => database_at (servers s') uri db !! coll = None
     end).
Proof.
  cbv zeta. rewrite cut_old_data_run. unfold cut_old_data_outcome.
  destruct (discover self (servers s) (mongodb_host_with_port self)) as [p|e] eqn:Hp;
    [destruct (cut_off_date (today s) retention) as [d|e] eqn:Hd|]; simpl.
  - set (s0 := emit _ (find_primary_state _ _ _)).
    assert (Hs0 : servers s0 = servers s).
    { unfold s0. now rewrite servers_emit, servers_find_primary_state. }
    destruct (discover_Ok_inv _ _ _ _ Hp) as (before & after & _ & _ & Hprim).
    split; [|split].
    + intros uri db Hdb. apply map_eq. intros coll.
      rewrite lookup_sweep_state, Hs0. rewrite decide_False; [done|].
      intros (_ & ? & _). now apply Hdb.
    + intros uri. now rewrite ismaster_sweep_state, Hs0.
    + intros uri db coll. rewrite lookup_sweep_state, Hs0.
      destruct (database_at (servers s) uri db !! coll) as [k|] eqn:Hk.
      * destruct (decide _).
        -- exists (Driver.remove_docs (QLt "timestamp" (cut_off_timestamp d)) k).
           split; [done|]. split; [done|]. simpl. apply sublist_filter.
        -- now exists k.
      * now destruct (decide _).
  - rewrite servers_find_primary_state. repeat split; try done.
    intros uri db coll. destruct (database_at (servers s) uri db !! coll) as [k|]; [|done].
    now exists k.
  - rewrite servers_find_primary_state. repeat split; try done.
    intros uri db coll. destruct (database_at (servers s) uri db !! coll) as [k|]; [|done].
    now exists k.
Qed.

(** ** The cutoff over all retentions *)

Lemma days_before_year_succ y :
  PyDate._days_before_year (y + 1) =
  PyDate._days_before_year y + (if PyDate._is_leap y then 366 else 365).
Proof.
  pose proof (leap_year_step (y - 1)) as H.
  replace (y - 1 + 1) with y in H by lia. replace (y - 1 + 2) with (y + 1) in H by lia.
  unfold CutoffSpec.year_length, CutoffSpec.leap_year in H. unfold PyDate._is_leap. lia.
Qed.

Ltac compute_indexes :=
  repeat match goal with
         | |- context [PyDate.index ?l ?m] =>
             let v := eval vm_compute in (PyDate.index l m) in
             change (PyDate.index l m) with v
         end.

Lemma month_start_step k :
  month_start (k + 1) =
  month_start k + PyDate._days_in_month (k / 12) (k mod 12 + 1).
Proof.
  unfold month_start.
  pose proof (Z.mod_pos_bound k 12 ltac:(lia)) as Hr.
  assert (H : k mod 12 = 0 ∨ k mod 12 = 1 ∨ k mod 12 = 2 ∨ k mod 12 = 3 ∨
              k mod 12 = 4 ∨ k mod 12 = 5 ∨ k mod 12 = 6 ∨ k mod 12 = 7 ∨
              k mod 12 = 8 ∨ k mod 12 = 9 ∨ k mod 12 = 10 ∨ k mod 12 = 11) by lia.
  destruct (Z.eq_dec (k mod 12) 11) as [E11|N11].
  - assert (Hq : (k + 1) / 12 = k / 12 + 1) by (Z.div_mod_to_equations; lia).
    assert (Hm : (k + 1) mod 12 = 0) by (Z.div_mod_to_equations; lia).
    rewrite Hq, Hm, E11, days_before_year_succ.
    unfold PyDate._days_before_month, PyDate._days_in_month. simpl.
    compute_indexes.
    destruct (PyDate._is_leap (k / 12)); lia.
  - assert (Hq : (k + 1) / 12 = k / 12) by (Z.div_mod_to_equations; lia).
    assert (Hm : (k + 1) mod 12 = k mod 12 + 1) by (Z.div_mod_to_equations; lia).
    rewrite Hq, Hm. clear Hq Hm Hr.
    unfold PyDate._days_before_month, PyDate._days_in_month.
    destruct H as [->|[->|[->|[->|[->|[->|[->|[->|[->|[->|[->|E]]]]]]]]]]];
      [..|done]; simpl; compute_indexes; destruct (PyDate._is_leap (k / 12)); lia.
Qed.

Lemma days_in_month_bounds y m :
  1 <= m <= 12 -> 28 <= PyDate._days_in_month y m <= 31.
Proof.
  intros Hm. rewrite days_in_month_cases by done.
  destruct (m =? 2);
    [destruct (PyDate._is_leap y)
    |destruct ((m =? 4) || (m =? 6) || (m =? 9) || (m =? 11))]; lia.
Qed.

Lemma month_start_mono k1 k2 : k1 <= k2 -> month_start k1 <= month_start k2.
Proof.
  intros H. replace k2 with (k1 + Z.of_nat (Z.to_nat (k2 - k1))) by lia.
  induction (Z.to_nat (k2 - k1)) as [|n IH].
  - replace (k1 + Z.of_nat 0) with k1 by lia. lia.
  - replace (k1 + Z.of_nat (S n)) with (k1 + Z.of_nat n + 1) by lia.
    rewrite month_start_step.
    pose proof (days_in_month_bounds ((k1 + Z.of_nat n) / 12) ((k1 + Z.of_nat n) mod 12 + 1)).
    pose proof (Z.mod_pos_bound (k1 + Z.of_nat n) 12). lia.
Qed.

Lemma cut_off_date_out_of_range t n :
  PyDate.valid t ->
  ¬ (1 <= PyDate.year t + (PyDate.month t - n - 1) / 12 <= 9999) ->
  cut_off_date t n = Raise OverflowError.
Proof.
  intros (Hy & Hm & Hd) Hn.
  unfold cut_off_date, MonthDelta.rsub, MonthDelta.add, PyDate.replace,
    PyDate._check_date_fields.
  replace (PyDate.month t + - n - 1) with (PyDate.month t - n - 1) by lia.
  set (y := PyDate.year t + (PyDate.month t - n - 1) / 12) in *.
  assert (Hc : (PyDate.MINYEAR <=? y) && (y <=? PyDate.MAXYEAR) = false).
  { unfold PyDate.MINYEAR, PyDate.MAXYEAR. apply andb_false_iff.
    destruct (Z.leb_spec 1 y); [right|left; done]. apply Z.leb_gt. lia. }
  now rewrite Hc.
Qed.

Lemma cut_off_date_within_range t n :
  PyDate.valid t ->
  1 <= PyDate.year t + (PyDate.month t - n - 1) / 12 <= 9999 ->
  cut_off_date t n = Ok (CutoffSpec.minus_months t n) ∧
  PyDate.valid (CutoffSpec.minus_months t n).
Proof.
  intros Hv Hr. rewrite minus_months_index. cbv zeta.
  replace (PyDate.month t - n - 1) with (PyDate.month t + - n - 1) in Hr by lia.
  set (idx := PyDate.month t + - n - 1) in *.
  assert (Hm' : 1 <= idx mod 12 + 1 <= 12).
  { pose proof (Z.mod_pos_bound idx 12). lia. }
  rewrite month_length_days_in_month by done.
  exact (add_in_range (- n) t Hv Hr).
Qed.

Lemma cut_off_timestamp_minus_months t n :
  PyDate.valid t ->
  let K := 12 * PyDate.year t + (PyDate.month t - 1) - n in
  ∃ dd, 1 <= dd <= PyDate._days_in_month (K / 12) (K mod 12 + 1) ∧
        cut_off_timestamp (CutoffSpec.minus_months t n) =
        (month_start K + dd - PyCalendar._EPOCH_ORD) * 86400000.
Proof.
  intros (Hy & Hm & Hd) K.
  assert (Hm' : 1 <= K mod 12 + 1 <= 12).
  { pose proof (Z.mod_pos_bound K 12). lia. }
  pose proof (days_in_month_bounds (K / 12) (K mod 12 + 1) Hm') as Hb.
  exists (Z.min (PyDate.day t) (PyDate._days_in_month (K / 12) (K mod 12 + 1))).
  split; [lia|].
  unfold cut_off_timestamp, CutoffSpec.minus_months. fold K. cbv zeta.
  rewrite month_length_days_in_month by done.
  unfold PyCalendar.timegm, PyDate.timetuple, PyDate.toordinal, PyDate._ymd2ord,
    month_start.
  cbn [PyDate.year PyDate.month PyDate.day]. lia.
Qed.

(** X8: for a valid date and any number of months, negative ones
    included, the cutoff date is defined exactly when its year is one a
    [date] can hold: then it is today minus the months with the day
    clamped, a valid date; otherwise the subtraction raises
    [OverflowError], and never anything else. *)
Theorem X8_cutoff_date_defined_exactly_in_range t n (Hv : PyDate.valid t) :
  let y := PyDate.year t + (PyDate.month t - n - 1) / 12 in
  (1 <= y <= 9999 ->
   cut_off_date t n = Ok (CutoffSpec.minus_months t n) ∧
   PyDate.valid (CutoffSpec.minus_months t n)) ∧
  (¬ (1 <= y <= 9999) -> cut_off_date t n = Raise OverflowError).
Proof.
  intros y. split.
  - now apply cut_off_date_within_range.
  - now apply cut_off_date_out_of_range.
Qed.

Lemma X8_witness :
  cut_off_date (PyDate.Date 2018 3 31) (-100000) = Raise OverflowError ∧
  cut_off_date (PyDate.Date 2018 3 31) (-11) = Ok (PyDate.Date 2019 2 28).
Proof.
  assert (Hv : PyDate.valid (PyDate.Date 2018 3 31)).
  { unfold PyDate.valid. vm_compute. repeat split; discriminate. }
  split.
  - apply (proj2 (X8_cutoff_date_defined_exactly_in_range (PyDate.Date 2018 3 31)
                    (-100000) Hv)).
    vm_compute. intros [_ H]. now apply H.
  - destruct (proj1 (X8_cutoff_date_defined_exactly_in_range (PyDate.Date 2018 3 31)
                       (-11) Hv)) as [H _].
    + vm_compute. split; discriminate.
    + rewrite H. reflexivity.
Defined.

(** X9: a longer retention gives a strictly earlier cutoff: for a valid
    date and [n1 < n2], whenever both cutoff dates are defined the
    timestamp for [n2] is below the one for [n1], so every document the
    sweep with [n2] matches is matched by the sweep with [n1] as well. *)
Theorem X9_longer_retention_earlier_cutoff t n1 n2 d1 d2
    (Hv : PyDate.valid t) (Hlt : n1 < n2)
    (H1 : cut_off_date t n1 = Ok d1) (H2 : cut_off_date t n2 = Ok d2) :
  cut_off_timestamp d2 < cut_off_timestamp d1 ∧
  ∀ doc, matches (QLt "timestamp" (cut_off_timestamp d2)) doc = true ->
         matches (QLt "timestamp" (cut_off_timestamp d1)) doc = true.
Proof.
  assert (Hd : ∀ n d, cut_off_date t n = Ok d -> d = CutoffSpec.minus_months t n).
  { intros n d H.
    destruct (decide (1 <= PyDate.year t + (PyDate.month t - n - 1) / 12 <= 9999)) as [Hr|Hr].
    - destruct (cut_off_date_within_range t n Hv Hr) as [E _]. congruence.
    - rewrite (cut_off_date_out_of_range t n Hv Hr) in H. discriminate H. }
  rewrite (Hd n1 d1 H1), (Hd n2 d2 H2).
  destruct (cut_off_timestamp_minus_months t n1 Hv) as (dd1 & Hdd1 & ->).
  destruct (cut_off_timestamp_minus_months t n2 Hv) as (dd2 & Hdd2 & ->).
  set (K1 := 12 * PyDate.year t + (PyDate.month t - 1) - n1) in *.
  set (K2 := 12 * PyDate.year t + (PyDate.month t - 1) - n2) in *.
  assert (Hstep : month_start K2 + dd2 <= month_start K1).
  { pose proof (month_start_step K2) as Hs.
    pose proof (month_start_mono (K2 + 1) K1 ltac:(unfold K1, K2; lia)). lia. }
  assert (Hts : (month_start K2 + dd2 - PyCalendar._EPOCH_ORD) * 86400000 <
                (month_start K1 + dd1 - PyCalendar._EPOCH_ORD) * 86400000) by lia.
  split; [exact Hts|].
  intros doc. simpl. destruct (doc !! "timestamp") as [[ts| | |]|]; try done.
  intros H%Z.ltb_lt. apply Z.ltb_lt. lia.
Qed.

Lemma X9_witness :
  cut_off_timestamp (PyDate.Date 2018 1 31) < cut_off_timestamp (PyDate.Date 2018 2 28).
Proof.
  apply (X9_longer_retention_earlier_cutoff (PyDate.Date 2018 3 31) 1 2
           (PyDate.Date 2018 2 28) (PyDate.Date 2018 1 31)).
  - unfold PyDate.valid. vm_compute. repeat split; discriminate.
  - lia.
  - reflexivity.
  - reflexivity.
Defined.

(** ** The entry point *)

Lemma trace_closed s :
  trace (closed s) = trace s ++ (if __conn s is Some cl then [EClose cl] else []).
Proof. unfold closed. destruct (__conn s); simpl; [done|now rewrite app_nil_r]. Qed.

Lemma removals_rebuild_events srv uri db names :
  removals (rebuild_events srv uri db names) = [].
Proof.
  unfold rebuild_events. induction names as [|coll names IH]; [done|].
  rewrite bind_cons, removals_app, IH, app_nil_r.
  unfold rebuild_collection_events. rewrite !removals_app.
  assert (H : ∀ l : list string,
             removals ((λ idx, ELog DEBUG (MsgIndex idx)) <$> l) = []).
  { induction l; [done|]. now rewrite fmap_cons. }
  rewrite H. reflexivity.
Qed.

Lemma removals_rebuild_outcome self hosts found s :
  removals (trace (rebuild_outcome self hosts found s).2) = removals (trace s).
Proof.
  revert found s. induction hosts as [|host hosts IH]; intros found s; [done|].
  cbn [rebuild_outcome].
  assert (Hc : removals (trace (connected self host s)) = removals (trace s)).
  { rewrite trace_connected, removals_app, removals_connect_events. apply app_nil_r. }
  destruct (reports self (servers s) host) as [[|]|]; [now rewrite IH| |done].
  rewrite IH. cbn [add_events trace].
  change (ELog INFO (MsgRebuilding host) :: ?l) with ([ELog INFO (MsgRebuilding host)] ++ l).
  rewrite !removals_app, removals_rebuild_events, Hc. simpl. now rewrite app_nil_r.
Qed.

Lemma removals_rebuild_indexes self s :
  removals (trace (rebuild_indexes self s).2) = removals (trace s).
Proof.
  unfold rebuild_indexes, mbind, M_bind. rewrite rebuild_hosts_run.
  pose proof (removals_rebuild_outcome self (mongodb_host_with_port self) false s) as H.
  destruct (rebuild_outcome _ _ _ _) as [[found|e] s']; [|done].
  destruct found; simpl in *; [done|].
  unfold log, modify, sys_exit, raise, mbind, M_bind. simpl.
  rewrite removals_app. simpl. now rewrite app_nil_r.
Qed.

Lemma reindexes_find_primary_state self hosts s :
  reindexes (trace (find_primary_state self hosts s)) = reindexes (trace s).
Proof.
  revert s. induction hosts as [|host hosts IH]; intros s; simpl.
  - rewrite reindexes_app. simpl. now rewrite app_nil_r.
  - destruct (reports self (servers s) host) as [[|]|]; simpl;
      rewrite ?reindexes_app, ?IH, trace_connected, reindexes_app,
        reindexes_connect_events; simpl; now rewrite ?app_nil_r.
Qed.

Lemma reindexes_sweep_state uri db cutoff names s :
  reindexes (trace (sweep_state uri db cutoff names s)) = reindexes (trace s).
Proof.
  revert s. induction names as [|coll names IH]; intros s; [done|].
  unfold sweep_state in *. simpl. rewrite IH. simpl.
  rewrite reindexes_app. simpl. now rewrite app_nil_r.
Qed.

Lemma reindexes_cut_old_data self retention s :
  reindexes (trace (cut_old_data self retention s).2) = reindexes (trace s).
Proof.
  rewrite cut_old_data_run. unfold cut_old_data_outcome.
  destruct (discover _ _ _) as [p|e]; simpl;
    [destruct (cut_off_date _ _) as [d|e]; simpl|];
    rewrite ?reindexes_sweep_state; simpl; rewrite ?reindexes_app; simpl;
    rewrite ?app_nil_r; apply reindexes_find_primary_state.
Qed.

(** X10: when the script runs to its end, no connection is left open:
    from a state in which the open connections are the one held (none at
    start), a [main] that returns normally ends with [__conn] unset and no
    open client. *)
Theorem X10_main_closes_its_connection a s s'
    (Hinv : single_connection s) (Hok : main a s = (Ok (), s')) :
  __conn s' = None ∧ open_clients s' = [].
Proof.
  pose proof single_connection_conn_only as HP.
  rewrite main_steps in Hok. unfold mbind, M_bind, after_retention in Hok.
  set (step1 := if truthy (retention a)
                then cut_old_data (MongoDB_init a) (default 0 (retention a))
                else log INFO MsgNoRetention) in Hok.
  set (step2 := if rebuild a then rebuild_indexes (MongoDB_init a)
                else log INFO MsgNoRebuild) in Hok.
  assert (H1 : preserves single_connection step1).
  { unfold step1. destruct (truthy _);
      [apply preserves_cut_old_data | now apply preserves_log]. }
  assert (H2 : preserves single_connection step2).
  { unfold step2. destruct (rebuild a);
      [apply preserves_rebuild_indexes | now apply preserves_log]. }
  specialize (H1 s Hinv).
  destruct (step1 s) as [[[]|e1] s1]; [|discriminate Hok]. simpl in H1.
  unfold mbind, M_bind in Hok. specialize (H2 s1 H1).
  destruct (step2 s1) as [[[]|e2] s2]; [|discriminate Hok]. simpl in H2.
  rewrite close_run in Hok. injection Hok as <-.
  split; [apply conn_closed | now apply closed_no_clients].
Qed.

Lemma X10_witness :
  let a := Args "prod" ["A"; "B"; "C"] None None (Some 1) true in
  __conn (main a Sample.start).2 = None ∧ open_clients (main a Sample.start).2 = [].
Proof.
  intros a.
  apply (X10_main_closes_its_connection a Sample.start).
  - reflexivity.
  - vm_compute. reflexivity.
Defined.

(** X11: the flags gate the writes.  Without a truthy [--retention] the
    script issues no [remove] and leaves every deployment as it was, with
    or without [--rebuild]; without [--rebuild] it issues no [reindex],
    whatever the retention sweep does. *)
Theorem X11_flags_gate_the_writes a s :
  (truthy (retention a) = false ->
   removals (trace (main a s).2) = removals (trace s) ∧
   servers (main a s).2 = servers s) ∧
  (rebuild a = false ->
   reindexes (trace (main a s).2) = reindexes (trace s)).
Proof.
  split.
  - intros Hr.
    set (P := λ x : state, removals (trace x) = removals (trace s) ∧ servers x = servers s).
    assert (Hlog : ∀ lvl m, preserves P (log lvl m)).
    { intros lvl m x [H1 H2]. split; [|done]. simpl.
      rewrite removals_app. simpl. now rewrite app_nil_r. }
    assert (Hmain : preserves P (main a)).
    { rewrite main_steps, Hr. apply preserves_bind; [apply Hlog|intros _].
      unfold after_retention. apply preserves_bind.
      - destruct (rebuild a); [|apply Hlog].
        intros x [H1 H2]. split.
        + now rewrite removals_rebuild_indexes.
        + now rewrite servers_rebuild_indexes.
      - intros _ x [H1 H2]. rewrite close_run. simpl. split.
        + rewrite trace_closed, removals_app.
          destruct (__conn x); simpl; now rewrite app_nil_r.
        + now rewrite servers_closed. }
    now apply Hmain.
  - intros Hr.
    set (P := λ x : state, reindexes (trace x) = reindexes (trace s)).
    assert (Hlog : ∀ lvl m, preserves P (log lvl m)).
    { intros lvl m x H. unfold P in *. simpl.
      rewrite reindexes_app. simpl. now rewrite app_nil_r. }
    assert (Hmain : preserves P (main a)).
    { rewrite main_steps. apply preserves_bind.
      - destruct (truthy _); [|apply Hlog].
        intros x H. unfold P in *. now rewrite reindexes_cut_old_data.
      - intros _. unfold after_retention. rewrite Hr.
        apply preserves_bind; [apply Hlog|].
        intros _ x H. unfold P in *. rewrite close_run. simpl.
        rewrite trace_closed, reindexes_app.
        destruct (__conn x); simpl; now rewrite app_nil_r. }
    now apply Hmain.
Qed.

(** ** How the script can end *)






